(** * BookingScreen: a shallow embedding of [src/pages/BookingScreen.tsx]

    The screen is a React function component.  Its ten [useState] cells are
    gathered in one record, [handleBooking] is split at its single [await]
    into the part that runs inside the click handler and the part that runs
    when the promise of [apiService.bookConsultation] settles, and every
    observable action ([alert], [setIsLoading], the call of the port, the
    [onSuccess] callback) is recorded as an [Effect] in program order. *)

From Stdlib Require Import ZArith List String Ascii Bool Lia.
Import ListNotations.
Open Scope string_scope.

(** ** JavaScript values *)

(** A string used as a condition: only the empty string is falsy. *)
Definition truthy (s : string) : bool :=
  match s with
  | EmptyString => false
  | String _ _ => true
  end.

(** What evaluating a call gives: a value, or an exception (for an awaited
    promise: fulfilled, or rejected). *)
Inductive Outcome (A : Type) : Type :=
| Returns (a : A)
| Throws.
Arguments Returns {A} a.
Arguments Throws {A}.

(** [String.prototype.toUpperCase], on the ASCII letters (the field it is
    applied to holds a two-letter state code). *)
Definition upperAscii (c : ascii) : ascii :=
  let n := nat_of_ascii c in
  if (97 <=? n)%nat && (n <=? 122)%nat then ascii_of_nat (n - 32) else c.

Fixpoint toUpperCase (s : string) : string :=
  match s with
  | EmptyString => EmptyString
  | String c r => String (upperAscii c) (toUpperCase r)
  end.

(** ** The component's state (lines 11-20) *)

Inductive ConsultationType : Type := presencial | online.

Record FormState : Type := mkForm {
  selectedDate : string;
  selectedTime : string;
  consultationType : ConsultationType;
  addressStreet : string;
  addressNumber : string;
  addressNeighborhood : string;
  addressCity : string;
  addressState : string;
  notes : string;
  isLoading : bool
}.

Definition initialForm : FormState :=
  mkForm "" "" presencial "" "" "" "" "" "" false.

Definition setSelectedDate (v : string) (s : FormState) : FormState :=
  mkForm v (selectedTime s) (consultationType s) (addressStreet s)
    (addressNumber s) (addressNeighborhood s) (addressCity s) (addressState s)
    (notes s) (isLoading s).

Definition setSelectedTime (v : string) (s : FormState) : FormState :=
  mkForm (selectedDate s) v (consultationType s) (addressStreet s)
    (addressNumber s) (addressNeighborhood s) (addressCity s) (addressState s)
    (notes s) (isLoading s).

Definition setConsultationType (t : ConsultationType) (s : FormState) : FormState :=
  mkForm (selectedDate s) (selectedTime s) t (addressStreet s)
    (addressNumber s) (addressNeighborhood s) (addressCity s) (addressState s)
    (notes s) (isLoading s).

Definition setAddressStreet (v : string) (s : FormState) : FormState :=
  mkForm (selectedDate s) (selectedTime s) (consultationType s) v
    (addressNumber s) (addressNeighborhood s) (addressCity s) (addressState s)
    (notes s) (isLoading s).

Definition setAddressNumber (v : string) (s : FormState) : FormState :=
  mkForm (selectedDate s) (selectedTime s) (consultationType s) (addressStreet s)
    v (addressNeighborhood s) (addressCity s) (addressState s)
    (notes s) (isLoading s).

Definition setAddressNeighborhood (v : string) (s : FormState) : FormState :=
  mkForm (selectedDate s) (selectedTime s) (consultationType s) (addressStreet s)
    (addressNumber s) v (addressCity s) (addressState s)
    (notes s) (isLoading s).

Definition setAddressCity (v : string) (s : FormState) : FormState :=
  mkForm (selectedDate s) (selectedTime s) (consultationType s) (addressStreet s)
    (addressNumber s) (addressNeighborhood s) v (addressState s)
    (notes s) (isLoading s).

Definition setAddressState (v : string) (s : FormState) : FormState :=
  mkForm (selectedDate s) (selectedTime s) (consultationType s) (addressStreet s)
    (addressNumber s) (addressNeighborhood s) (addressCity s) v
    (notes s) (isLoading s).

Definition setNotes (v : string) (s : FormState) : FormState :=
  mkForm (selectedDate s) (selectedTime s) (consultationType s) (addressStreet s)
    (addressNumber s) (addressNeighborhood s) (addressCity s) (addressState s)
    v (isLoading s).

Definition setIsLoading (b : bool) (s : FormState) : FormState :=
  mkForm (selectedDate s) (selectedTime s) (consultationType s) (addressStreet s)
    (addressNumber s) (addressNeighborhood s) (addressCity s) (addressState s)
    (notes s) b.

(** The static catalogue of hour marks (lines 22-25). *)
Definition timeSlots : list string :=
  ["08:00"; "09:00"; "10:00"; "11:00";
   "14:00"; "15:00"; "16:00"; "17:00"; "18:00"].

(** ** The two guards at the head of [handleBooking] (lines 45-55)

    [Some msg] when a guard alerts [msg] and returns, [None] when both are
    passed. *)
Definition validationAlert (s : FormState) : option string :=
  if negb (truthy (selectedDate s)) || negb (truthy (selectedTime s))
  then Some "Por favor, selecione data e horário"
  else
    match consultationType s with
    | presencial =>
        if negb (truthy (addressStreet s)) || negb (truthy (addressNumber s))
           || negb (truthy (addressNeighborhood s))
           || negb (truthy (addressCity s)) || negb (truthy (addressState s))
        then Some "Por favor, preencha todos os campos de endereço"
        else None
    | online => None
    end.

(** The [disabled] attribute of the Book button (line 295). *)
Definition bookButtonDisabled (s : FormState) : bool :=
  negb (truthy (selectedDate s)) || negb (truthy (selectedTime s)) || isLoading s.

(** The specification's [canSubmit], written from its words: "true iff date
    is selected, time is selected, AND (mode = remote OR all five address
    sub-fields are non-empty)".  The source has no function of that name;
    the theorems compare this predicate with the guards above. *)
Definition canSubmit (s : FormState) : bool :=
  truthy (selectedDate s) && truthy (selectedTime s)
  && (match consultationType s with
      | online => true
      | presencial =>
          truthy (addressStreet s) && truthy (addressNumber s)
          && truthy (addressNeighborhood s)
          && truthy (addressCity s) && truthy (addressState s)
      end).

(** ** The runtime's [Date] (ECMAScript time values)

    A [Date] object holds a time value: milliseconds since the epoch, UTC.
    The local calendar is UTC shifted by a fixed number of minutes (no
    daylight-saving changes), negative west of Greenwich. *)
Module JsDate.
Local Open Scope Z_scope.

Definition msPerDay : Z := 86400000.
Definition msPerMinute : Z := 60000.

Definition Day (t : Z) : Z := t / msPerDay.
Definition TimeWithinDay (t : Z) : Z := t mod msPerDay.
Definition WeekDay (t : Z) : Z := (Day t + 4) mod 7.

Definition LocalTime (offset t : Z) : Z := t + offset * msPerMinute.
Definition UTC (offset t : Z) : Z := t - offset * msPerMinute.

Record Civil : Type := mkCivil { year : Z; month : Z; day : Z }.

(** Day number (days since 1970-01-01) of a proleptic Gregorian date;
    [m] is 1..12, [d] may lie outside the month and then runs over into the
    neighbouring months. *)
Definition daysFromCivil (y m d : Z) : Z :=
  let y' := if m <=? 2 then y - 1 else y in
  let era := y' / 400 in
  let yoe := y' - era * 400 in
  let mp := if 2 <? m then m - 3 else m + 9 in
  let doy := (153 * mp + 2) / 5 + d - 1 in
  let doe := yoe * 365 + yoe / 4 - yoe / 100 + doy in
  era * 146097 + doe - 719468.

Definition civilFromDays (z : Z) : Civil :=
  let z' := z + 719468 in
  let era := z' / 146097 in
  let doe := z' - era * 146097 in
  let yoe := (doe - doe / 1460 + doe / 36524 - doe / 146096) / 365 in
  let doy := doe - (365 * yoe + yoe / 4 - yoe / 100) in
  let mp := (5 * doy + 2) / 153 in
  let d := doy - (153 * mp + 2) / 5 + 1 in
  let m := if mp <? 10 then mp + 3 else mp - 9 in
  mkCivil (if m <=? 2 then yoe + era * 400 + 1 else yoe + era * 400) m d.

Definition MakeDay (y m dt : Z) : Z := daysFromCivil y m 1 + dt - 1.
Definition MakeDate (dayNumber time : Z) : Z := dayNumber * msPerDay + time.

(** [date.getDate()]: day of the month, local calendar. *)
Definition getDate (offset t : Z) : Z :=
  day (civilFromDays (Day (LocalTime offset t))).

(** [date.setDate(dt)]: same local year, month and time of day, day of the
    month [dt]; the new time value. *)
Definition setDate (offset t dt : Z) : Z :=
  let lt := LocalTime offset t in
  let c := civilFromDays (Day lt) in
  UTC offset (MakeDate (MakeDay (year c) (month c) dt) (TimeWithinDay lt)).

Definition digit (n : Z) : ascii := ascii_of_nat (48 + Z.to_nat n).

(** The last [width] decimal digits of [n], most significant first. *)
Fixpoint padDigits (width : nat) (n : Z) : string :=
  match width with
  | O => EmptyString
  | S w => (padDigits w (n / 10) ++ String (digit (n mod 10)) EmptyString)%string
  end.

Definition isoYear (y : Z) : string :=
  if (0 <=? y) && (y <=? 9999) then padDigits 4 y
  else ((if (y <? 0)%Z then "-" else "+") ++ padDigits 6 (Z.abs y))%string.

(** [date.toISOString().split('T')[0]]: the calendar date of the time
    value in UTC. *)
Definition isoDatePart (t : Z) : string :=
  let c := civilFromDays (Day t) in
  (isoYear (year c) ++ "-" ++ padDigits 2 (month c) ++ "-" ++ padDigits 2 (day c))%string.

(** What [toLocaleDateString('pt-BR', {weekday, day, month})] renders: the
    weekday (0 = Sunday), day of the month and month of the local date.
    The exact text depends on the runtime's locale data and is left out. *)
Record LabelParts : Type := mkLabel { weekday : Z; dayOfMonth : Z; monthOfYear : Z }.

Definition localeParts (offset t : Z) : LabelParts :=
  let lt := LocalTime offset t in
  let c := civilFromDays (Day lt) in
  mkLabel (WeekDay lt) (day c) (month c).

(** The local calendar date of a time value. *)
Definition localCivil (offset t : Z) : Civil := civilFromDays (Day (LocalTime offset t)).
End JsDate.

(** ** Day slots (lines 27-42) *)

(** What [new Date()] reads: the current instant and the zone of the
    consumer.  Every iteration of the loop reads the same instant. *)
Record Clock : Type := mkClock { now : Z; utcOffsetMinutes : Z }.

Record DaySlot : Type := mkDaySlot { value : string; label : JsDate.LabelParts }.

(** The body of the loop for one [i]. *)
Definition nextDay (clock : Clock) (i : Z) : DaySlot :=
  let offset := utcOffsetMinutes clock in
  let date := JsDate.setDate offset (now clock)
                (JsDate.getDate offset (now clock) + i)%Z in
  mkDaySlot (JsDate.isoDatePart date) (JsDate.localeParts offset date).

(** [for (let i = 1; i <= count; i++)]: i = 1, ..., count, nothing when
    [count < 1].  [count] is an integer here.  (The same loop in a zone
    whose offset changes, with a reading of the clock in every iteration
    and the range of time values, is [getNextDaysIn] below.) *)
Definition getNextDays (clock : Clock) (count : Z) : list DaySlot :=
  map (fun i => nextDay clock (Z.of_nat i)) (seq 1 (Z.to_nat count)).

(** The label parts of the calendar day with a given day number. *)
Definition labelOfDay (dayNumber : Z) : JsDate.LabelParts :=
  JsDate.mkLabel ((dayNumber + 4) mod 7)%Z
    (JsDate.day (JsDate.civilFromDays dayNumber))
    (JsDate.month (JsDate.civilFromDays dayNumber)).

(** The entry rendered from the instant [t]: what the loop body pushes once
    [date] holds [t]. *)
Definition slotAt (offset t : Z) : DaySlot :=
  mkDaySlot (JsDate.isoDatePart t) (JsDate.localeParts offset t).

(** ** Day slots in a zone with clock changes

    The same loop without the two assumptions made above.  The zone is the
    runtime's [LocalTZA(t, isUTC)], in milliseconds: the offset in force at
    the UTC instant [t], or at the local time value [t]; it may change from
    one instant to another.  [new Date()] is read anew in every iteration:
    [reading i] is the time value it gives in the iteration of [i].  A
    [Date] moved out of the range of time values is invalid, and
    [toISOString] of an invalid [Date] raises [RangeError]. *)
Record Runtime : Type := mkRuntime {
  LocalTZA : Z -> bool -> Z;
  reading : nat -> Z
}.

Definition maxTime : Z := 8640000000000000.

Definition TimeClip (t : Z) : option Z :=
  if (Z.abs t <=? maxTime)%Z then Some t else None.

Definition LocalTimeIn (rt : Runtime) (t : Z) : Z := (t + LocalTZA rt t true)%Z.
Definition UTCIn (rt : Runtime) (t : Z) : Z := (t - LocalTZA rt t false)%Z.

Definition getDateIn (rt : Runtime) (t : Z) : Z :=
  JsDate.day (JsDate.civilFromDays (JsDate.Day (LocalTimeIn rt t))).

(** [date.setDate(dt)]: the local year, month and time of day are kept, the
    result is turned back into UTC with the offset in force at the new
    local time, and clipped. *)
Definition setDateIn (rt : Runtime) (t dt : Z) : option Z :=
  let lt := LocalTimeIn rt t in
  let c := JsDate.civilFromDays (JsDate.Day lt) in
  TimeClip (UTCIn rt (JsDate.MakeDate
                        (JsDate.MakeDay (JsDate.year c) (JsDate.month c) dt)
                        (JsDate.TimeWithinDay lt))).

(** The body of the loop for one [i]. *)
Definition nextDayIn (rt : Runtime) (i : nat) : Outcome DaySlot :=
  let t := reading rt i in
  match setDateIn rt t (getDateIn rt t + Z.of_nat i)%Z with
  | Some date =>
      Returns (mkDaySlot (JsDate.isoDatePart date)
                         (labelOfDay (JsDate.Day (LocalTimeIn rt date))))
  | None => Throws
  end.

(** The iterations in order; an exception ends the loop and the call. *)
Fixpoint collectDays (rt : Runtime) (indices : list nat) : Outcome (list DaySlot) :=
  match indices with
  | [] => Returns []
  | i :: rest =>
      match nextDayIn rt i with
      | Throws => Throws
      | Returns d =>
          match collectDays rt rest with
          | Throws => Throws
          | Returns ds => Returns (d :: ds)
          end
      end
  end.

Definition getNextDaysIn (rt : Runtime) (count : Z) : Outcome (list DaySlot) :=
  collectDays rt (seq 1 (Z.to_nat count)).

(** Every reading of the clock lies between [lo] and [hi]. *)
Definition readingsWithin (rt : Runtime) (lo hi : Z) : Prop :=
  forall i, (lo <= reading rt i <= hi)%Z.

(** The zone keeps one offset, [offset] minutes, from [lo] to [hi]. *)
Definition noClockChange (rt : Runtime) (offset lo hi : Z) : Prop :=
  forall x b, (lo <= x <= hi)%Z -> LocalTZA rt x b = (offset * JsDate.msPerMinute)%Z.

(** ** Day buttons (lines 134-147)

    A button is drawn as selected when the selected value [===] its own. *)
Definition dayHighlighted (s : FormState) (d : DaySlot) : bool :=
  String.eqb (selectedDate s) (value d).

(** ** [new Date(selectedDate)] (line 281)

    A date-only string YYYY-MM-DD is read as midnight UTC of that date.
    [Some t] is the time value.  [None] stands for every other string and
    for a YYYY-MM-DD that names no calendar date: what the runtime makes of
    those is left out. *)
Definition digitValue (c : ascii) : option Z :=
  let n := nat_of_ascii c in
  if (48 <=? n)%nat && (n <=? 57)%nat then Some (Z.of_nat (n - 48)) else None.

Definition twoDigits (c1 c0 : ascii) : option Z :=
  match digitValue c1, digitValue c0 with
  | Some a, Some b => Some (a * 10 + b)%Z
  | _, _ => None
  end.

Definition isCalendarDate (y m d : Z) : bool :=
  let c := JsDate.civilFromDays (JsDate.daysFromCivil y m d) in
  ((1 <=? m) && (m <=? 12) && (1 <=? d) && (d <=? 31)
   && (JsDate.year c =? y) && (JsDate.month c =? m) && (JsDate.day c =? d))%Z.

Definition parseDateOnly (s : string) : option Z :=
  match s with
  | String y3 (String y2 (String y1 (String y0 (String sep1
      (String m1 (String m0 (String sep2 (String d1 (String d0
        EmptyString))))))))) =>
      if Ascii.eqb sep1 "-" && Ascii.eqb sep2 "-" then
        match twoDigits y3 y2, twoDigits y1 y0, twoDigits m1 m0, twoDigits d1 d0 with
        | Some yh, Some yl, Some m, Some d =>
            let y := (yh * 100 + yl)%Z in
            if isCalendarDate y m d
            then Some (JsDate.daysFromCivil y m d * JsDate.msPerDay)%Z
            else None
        | _, _, _, _ => None
        end
      else None
  | _ => None
  end.

(** ** The avatar's initials (line 114)

    [name.split(' ').map(n => n[0]).join('')].  A string is a sequence of
    code units. *)

(** [s.split(sep)] for a one-unit separator: the pieces between the
    separators, at least one piece. *)
Fixpoint split (sep : ascii) (s : string) : list string :=
  match s with
  | EmptyString => [EmptyString]
  | String c r =>
      if Ascii.eqb c sep then EmptyString :: split sep r
      else
        match split sep r with
        | w :: ws => String c w :: ws
        | [] => [String c EmptyString]
        end
  end.

(** [n[0]] as [join] writes it: [undefined] (for the empty piece) becomes
    the empty string. *)
Definition firstUnit (n : string) : string :=
  match n with
  | EmptyString => EmptyString
  | String c _ => String c EmptyString
  end.

(** [pieces.join('')] *)
Definition join (pieces : list string) : string :=
  fold_right append EmptyString pieces.

Definition initials (name : string) : string :=
  join (map firstUnit (split " " name)).

(** ** Lower-case ASCII letters *)

Definition isLowerAscii (c : ascii) : bool :=
  let n := nat_of_ascii c in (97 <=? n)%nat && (n <=? 122)%nat.

Fixpoint noLowerAscii (s : string) : bool :=
  match s with
  | EmptyString => true
  | String c r => negb (isLowerAscii c) && noLowerAscii r
  end.

(** ** The collaborators and [handleBooking] (lines 44-92)

    [@/services/api] is not part of the sources at hand: the types of the
    identifiers and of the price are left open. *)
Section Screen.
Variables UserId PhysioId Price : Type.

(** [apiService.getCurrentUser()] gives a user (only its [id] is read) or
    nothing. *)
Record User : Type := mkUser { userId : UserId }.

(** The [physiotherapist] prop; the fields that reach the request. *)
Record Physiotherapist : Type := mkPhysiotherapist {
  physioId : PhysioId;
  physioName : string;
  physioSpecialty : string;
  physioPrice : Price
}.

(** The object literal handed to [apiService.bookConsultation]
    (lines 66-79); [None] is [undefined]. *)
Record BookingRequest : Type := mkRequest {
  patientId : UserId;
  physiotherapistId : PhysioId;
  physiotherapistName : string;
  date : string;
  time : string;
  type : ConsultationType;
  specialty : string;
  address : option string;
  city : option string;
  state : option string;
  price : Price;
  requestNotes : string
}.

(** What the port's promise fulfils with. *)
Record BookingResult : Type := mkResult { success : bool; error : option string }.

Inductive Effect : Type :=
| Alert (msg : string)
| SetIsLoading (b : bool)
| BookConsultation (req : BookingRequest)
| OnSuccess.

(** Where the call of [handleBooking] stands when the click handler
    returns: finished, or suspended at [await]. *)
Inductive Suspension : Type := Finished | AwaitingPort.

Definition buildRequest (physiotherapist : Physiotherapist) (s : FormState)
    (currentUser : User) : BookingRequest :=
  mkRequest
    (userId currentUser)
    (physioId physiotherapist)
    (physioName physiotherapist)
    (selectedDate s)
    (selectedTime s)
    (consultationType s)
    (physioSpecialty physiotherapist)
    (match consultationType s with
     | presencial =>
         Some (addressStreet s ++ ", " ++ addressNumber s ++ " - "
               ++ addressNeighborhood s)
     | online => None
     end)
    (match consultationType s with
     | presencial => Some (addressCity s)
     | online => None
     end)
    (match consultationType s with
     | presencial => Some (addressState s)
     | online => None
     end)
    (physioPrice physiotherapist)
    (notes s).

(** [handleBooking] up to its [await]: the effects in program order.  The
    [finally] block runs on every way out of the [try]. *)
Definition handleBooking (physiotherapist : Physiotherapist) (s : FormState)
    (getCurrentUser : Outcome (option User)) : list Effect * Suspension :=
  match validationAlert s with
  | Some msg => ([Alert msg], Finished)
  | None =>
      match getCurrentUser with
      | Returns None =>
          ([SetIsLoading true; Alert "Usuário não encontrado";
            SetIsLoading false], Finished)
      | Returns (Some currentUser) =>
          ([SetIsLoading true;
            BookConsultation (buildRequest physiotherapist s currentUser)],
           AwaitingPort)
      | Throws =>
          ([SetIsLoading true; Alert "Erro inesperado ao agendar consulta";
            SetIsLoading false], Finished)
      end
  end.

(** [result.error || 'Erro ao agendar consulta'] *)
Definition errorOrDefault (e : option string) : string :=
  match e with
  | Some msg => if truthy msg then msg else "Erro ao agendar consulta"
  | None => "Erro ao agendar consulta"
  end.

(** [handleBooking] from its [await] on (lines 81-91): [settled] is how the
    port's promise settles, [callback] what calling [onSuccess] does. *)
Definition handleBookingResume (settled : Outcome BookingResult)
    (callback : Outcome unit) : list Effect :=
  (match settled with
   | Returns result =>
       if success result
       then Alert "Consulta agendada com sucesso!" :: OnSuccess ::
            match callback with
            | Returns _ => []
            | Throws => [Alert "Erro inesperado ao agendar consulta"]
            end
       else [Alert (errorOrDefault (error result))]
   | Throws => [Alert "Erro inesperado ao agendar consulta"]
   end ++ [SetIsLoading false])%list.

(** *** The mounted component

    The form together with the calls of the port that have not settled
    yet. *)
Record Component : Type := mkComponent {
  form : FormState;
  inFlight : list BookingRequest
}.

Definition mount : Component := mkComponent initialForm [].

(** What the user and the environment can do to the mounted screen. *)
Inductive UiEvent : Type :=
| PickDate (v : string)
| PickTime (v : string)
| ChooseType (t : ConsultationType)
| TypeStreet (v : string)
| TypeNumber (v : string)
| TypeNeighborhood (v : string)
| TypeCity (v : string)
| TypeState (v : string)
| TypeNotes (v : string)
| ClickBook (getCurrentUser : Outcome (option User))
| PortSettles (settled : Outcome BookingResult) (callback : Outcome unit).

(** State updates of one handler run are applied in order (the last
    [setIsLoading] wins); the other effects leave the form alone. *)
Definition applyEffect (s : FormState) (e : Effect) : FormState :=
  match e with
  | SetIsLoading b => setIsLoading b s
  | _ => s
  end.

Definition applyEffects (s : FormState) (es : list Effect) : FormState :=
  fold_left applyEffect es s.

Definition portCalls (es : list Effect) : list BookingRequest :=
  flat_map (fun e => match e with BookConsultation r => [r] | _ => [] end) es.

Definition edit (c : Component) (f : FormState -> FormState) : Component * list Effect :=
  (mkComponent (f (form c)) (inFlight c), []).

(** One event, with the screen drawn again right after it: the button and
    the handler see the state the previous event left.  (The screen between
    two renders is [happen] below.)  A disabled button does not call its
    [onClick]; a promise settles only if it is pending (the oldest one
    first). *)
Definition step (physiotherapist : Physiotherapist) (c : Component)
    (ev : UiEvent) : Component * list Effect :=
  match ev with
  | PickDate v => edit c (setSelectedDate v)
  | PickTime v => edit c (setSelectedTime v)
  | ChooseType t => edit c (setConsultationType t)
  | TypeStreet v => edit c (setAddressStreet v)
  | TypeNumber v => edit c (setAddressNumber v)
  | TypeNeighborhood v => edit c (setAddressNeighborhood v)
  | TypeCity v => edit c (setAddressCity v)
  | TypeState v => edit c (setAddressState (toUpperCase v))
  | TypeNotes v => edit c (setNotes v)
  | ClickBook getCurrentUser =>
      if bookButtonDisabled (form c) then (c, [])
      else
        let es := fst (handleBooking physiotherapist (form c) getCurrentUser) in
        (mkComponent (applyEffects (form c) es) (inFlight c ++ portCalls es)%list, es)
  | PortSettles settled callback =>
      match inFlight c with
      | [] => (c, [])
      | _ :: pending =>
          let es := handleBookingResume settled callback in
          (mkComponent (applyEffects (form c) es) pending, es)
      end
  end.

(** A run of events from a given state: the final state and everything
    that was observed. *)
Fixpoint run (physiotherapist : Physiotherapist) (c : Component)
    (evs : list UiEvent) : Component * list Effect :=
  match evs with
  | [] => (c, [])
  | ev :: rest =>
      let '(c', es) := step physiotherapist c ev in
      let '(c'', es') := run physiotherapist c' rest in
      (c'', (es ++ es')%list)
  end.

(** *** The screen between two renders

    A handler and the [disabled] attribute belong to the last render: they
    see the state as it was drawn ([shown]), while the [setState] calls act
    on the cells ([cells]).  [Rerender] draws the cells.  [step] above is
    one event followed by [Rerender]. *)
Record Mounted : Type := mkMounted {
  cells : FormState;
  shown : FormState;
  awaiting : list BookingRequest
}.

Definition mounted : Mounted := mkMounted initialForm initialForm [].

Inductive Happening : Type :=
| Event (ev : UiEvent)
| Rerender.

Definition setCells (m : Mounted) (f : FormState -> FormState) : Mounted * list Effect :=
  (mkMounted (f (cells m)) (shown m) (awaiting m), []).

Definition happen (physiotherapist : Physiotherapist) (m : Mounted)
    (h : Happening) : Mounted * list Effect :=
  match h with
  | Rerender => (mkMounted (cells m) (cells m) (awaiting m), [])
  | Event (PickDate v) => setCells m (setSelectedDate v)
  | Event (PickTime v) => setCells m (setSelectedTime v)
  | Event (ChooseType t) => setCells m (setConsultationType t)
  | Event (TypeStreet v) => setCells m (setAddressStreet v)
  | Event (TypeNumber v) => setCells m (setAddressNumber v)
  | Event (TypeNeighborhood v) => setCells m (setAddressNeighborhood v)
  | Event (TypeCity v) => setCells m (setAddressCity v)
  | Event (TypeState v) => setCells m (setAddressState (toUpperCase v))
  | Event (TypeNotes v) => setCells m (setNotes v)
  | Event (ClickBook getCurrentUser) =>
      if bookButtonDisabled (shown m) then (m, [])
      else
        let es := fst (handleBooking physiotherapist (shown m) getCurrentUser) in
        (mkMounted (applyEffects (cells m) es) (shown m)
           (awaiting m ++ portCalls es)%list, es)
  | Event (PortSettles settled callback) =>
      match awaiting m with
      | [] => (m, [])
      | _ :: rest =>
          let es := handleBookingResume settled callback in
          (mkMounted (applyEffects (cells m) es) (shown m) rest, es)
      end
  end.

Fixpoint happenAll (physiotherapist : Physiotherapist) (m : Mounted)
    (hs : list Happening) : Mounted * list Effect :=
  match hs with
  | [] => (m, [])
  | h :: rest =>
      let '(m', es) := happen physiotherapist m h in
      let '(m'', es') := happenAll physiotherapist m' rest in
      (m'', (es ++ es')%list)
  end.

(** The screen is drawn again between any two clicks on the Book button:
    [fresh] tells whether it was drawn since the last click. *)
Fixpoint rerenderBetweenClicks (fresh : bool) (hs : list Happening) : bool :=
  match hs with
  | [] => true
  | Rerender :: rest => rerenderBetweenClicks true rest
  | Event (ClickBook _) :: rest => fresh && rerenderBetweenClicks false rest
  | Event _ :: rest => rerenderBetweenClicks fresh rest
  end.

(** The single-flight invariant on the cells. *)
Definition steadyFlight (m : Mounted) : Prop :=
  (isLoading (cells m) = false /\ awaiting m = [])
  \/ (isLoading (cells m) = true /\ exists r, awaiting m = [r]).

(** *** The summary card (lines 277-290)

    Drawn only when date and time are both selected.  The date line is
    [new Date(selectedDate)] rendered in the local calendar of the zone
    [offset] (weekday, day and month). *)
Record Summary : Type := mkSummary {
  summaryDate : option JsDate.LabelParts;
  summaryTime : string;
  summaryIcon : string;
  summaryType : string;
  summaryPrice : Price
}.

Definition summary (offset : Z) (physiotherapist : Physiotherapist)
    (s : FormState) : option Summary :=
  if truthy (selectedDate s) && truthy (selectedTime s)
  then Some (mkSummary
               (option_map (JsDate.localeParts offset) (parseDateOnly (selectedDate s)))
               (selectedTime s)
               (match consultationType s with
                | presencial => "🏠"
                | online => "💻"
                end)
               (match consultationType s with
                | presencial => "Atendimento Domiciliar"
                | online => "Consulta Online"
                end)
               (physioPrice physiotherapist))
  else None.

(** *** Counting what a run shows *)

(** Clicks on the Book button made while a patient is signed in. *)
Definition signedInClicks (evs : list UiEvent) : nat :=
  List.length (filter (fun ev => match ev with
                                 | ClickBook (Returns (Some _)) => true
                                 | _ => false
                                 end) evs).

(** Calls of the [onSuccess] callback. *)
Definition successCallbacks (es : list Effect) : nat :=
  List.length (filter (fun e => match e with OnSuccess => true | _ => false end) es).

(** The single-flight invariant: either nothing is pending and the button
    is not held by [isLoading], or [isLoading] is set and exactly one call
    is pending. *)
Definition singleFlight (c : Component) : Prop :=
  (isLoading (form c) = false /\ inFlight c = [])
  \/ (isLoading (form c) = true /\ exists r, inFlight c = [r]).

(** ** Properties of the form and of [handleBooking] *)

Lemma truthy_nonempty (s : string) : truthy s = true <-> s <> "".
Proof.
  destruct s; simpl; split; intro H; try reflexivity; try discriminate.
  now elim H.
Qed.

Lemma truthy_empty (s : string) : truthy s = false <-> s = "".
Proof.
  destruct s; simpl; split; intro H; try reflexivity; discriminate.
Qed.

(** The guards of the handler pass exactly when the specification's
    [canSubmit] holds. *)
Lemma validationAlert_canSubmit (s : FormState) :
  validationAlert s = None <-> canSubmit s = true.
Proof.
  unfold validationAlert, canSubmit.
  destruct (truthy (selectedDate s)), (truthy (selectedTime s)); simpl;
    try (split; discriminate).
  destruct (consultationType s); [|tauto].
  destruct (truthy (addressStreet s)), (truthy (addressNumber s)),
    (truthy (addressNeighborhood s)), (truthy (addressCity s)),
    (truthy (addressState s)); simpl; split; (reflexivity || discriminate).
Qed.

Lemma validationAlert_rejects (s : FormState) :
  canSubmit s = false -> exists msg, validationAlert s = Some msg.
Proof.
  intro H. destruct (validationAlert s) as [msg|] eqn:E.
  - now exists msg.
  - apply validationAlert_canSubmit in E. congruence.
Qed.

Lemma handleBooking_invalid (p : Physiotherapist) (s : FormState)
    (g : Outcome (option User)) :
  canSubmit s = false ->
  exists msg, handleBooking p s g = ([Alert msg], Finished).
Proof.
  intro H. destruct (validationAlert_rejects s H) as [msg E].
  exists msg. unfold handleBooking. now rewrite E.
Qed.

Lemma handleBooking_valid (p : Physiotherapist) (s : FormState)
    (g : Outcome (option User)) :
  canSubmit s = true ->
  handleBooking p s g =
    match g with
    | Returns None =>
        ([SetIsLoading true; Alert "Usuário não encontrado";
          SetIsLoading false], Finished)
    | Returns (Some u) =>
        ([SetIsLoading true; BookConsultation (buildRequest p s u)],
         AwaitingPort)
    | Throws =>
        ([SetIsLoading true; Alert "Erro inesperado ao agendar consulta";
          SetIsLoading false], Finished)
    end.
Proof.
  intro H. apply validationAlert_canSubmit in H.
  unfold handleBooking. now rewrite H.
Qed.

Lemma bookButtonDisabled_loading (s : FormState) :
  isLoading s = true -> bookButtonDisabled s = true.
Proof.
  intro H. unfold bookButtonDisabled. rewrite H. now rewrite !orb_true_r.
Qed.

Lemma bookButtonEnabled_idle (s : FormState) :
  bookButtonDisabled s = false -> isLoading s = false.
Proof.
  unfold bookButtonDisabled. intro H.
  apply orb_false_iff in H. tauto.
Qed.

Lemma applyEffects_app (s : FormState) (es es' : list Effect) :
  applyEffects s (es ++ es') = applyEffects (applyEffects s es) es'.
Proof. apply fold_left_app. Qed.

Lemma isLoading_after_resume (s : FormState) (settled : Outcome BookingResult)
    (callback : Outcome unit) :
  isLoading (applyEffects s (handleBookingResume settled callback)) = false.
Proof.
  unfold handleBookingResume. now rewrite applyEffects_app.
Qed.

(** *** Single flight *)

Lemma singleFlight_mount : singleFlight mount.
Proof. left. split; reflexivity. Qed.

Lemma singleFlight_edit (c : Component) (f : FormState -> FormState) :
  (forall s, isLoading (f s) = isLoading s) ->
  singleFlight c -> singleFlight (fst (edit c f)).
Proof.
  intros Hf [[Hl Hp]|[Hl Hp]]; [left|right]; simpl; rewrite Hf; auto.
Qed.

Lemma singleFlight_step (p : Physiotherapist) (c : Component) (ev : UiEvent) :
  singleFlight c -> singleFlight (fst (step p c ev)).
Proof.
  intro Inv.
  destruct ev; try (apply singleFlight_edit; [reflexivity | exact Inv]).
  - (* the Book button *)
    simpl. destruct (bookButtonDisabled (form c)) eqn:Hd; [exact Inv|].
    apply bookButtonEnabled_idle in Hd.
    destruct Inv as [[_ Hp]|[Hl _]]; [|congruence].
    unfold handleBooking.
    destruct (validationAlert (form c)) as [msg|]; simpl.
    + left. rewrite Hp. auto.
    + destruct getCurrentUser as [[u|]|]; simpl; rewrite Hp; simpl.
      * right. split; [reflexivity|]. eexists. reflexivity.
      * left. auto.
      * left. auto.
  - (* the promise settles *)
    simpl. destruct (inFlight c) as [|r pending] eqn:Hp; [exact Inv|].
    left. simpl. split; [apply isLoading_after_resume|].
    destruct Inv as [[_ H]|[_ [r' H]]]; congruence.
Qed.

Lemma singleFlight_run (p : Physiotherapist) (evs : list UiEvent) (c : Component) :
  singleFlight c -> singleFlight (fst (run p c evs)).
Proof.
  revert c. induction evs as [|ev rest IH]; intros c Inv; [exact Inv|].
  simpl. pose proof (singleFlight_step p c ev Inv) as Inv'.
  destruct (step p c ev) as [c' es]. simpl in Inv'.
  specialize (IH c' Inv').
  destruct (run p c' rest) as [c'' es']. exact IH.
Qed.

(** [step] is [happen] followed by a render. *)
Lemma step_happen_rerender (p : Physiotherapist) (c : Component) (ev : UiEvent) :
  happenAll p (mkMounted (form c) (form c) (inFlight c)) [Event ev; Rerender]
  = (mkMounted (form (fst (step p c ev))) (form (fst (step p c ev)))
       (inFlight (fst (step p c ev))),
     snd (step p c ev)).
Proof.
  destruct ev; cbn [happenAll happen step edit setCells fst snd form inFlight
                    cells shown awaiting app]; try reflexivity.
  - destruct (bookButtonDisabled (form c)); cbn; [reflexivity|].
    f_equal. apply List.app_nil_r.
  - destruct (inFlight c) eqn:E; cbn; [now rewrite E|].
    f_equal. apply List.app_nil_r.
Qed.

(** The invariant carried along a run: single flight on the cells, and, as
    long as no click came since the last render, a button drawn enabled
    means that nothing is loading. *)
Lemma steadyFlight_happen (p : Physiotherapist) (fresh : bool) (m : Mounted)
    (h : Happening) :
  steadyFlight m ->
  (fresh = true -> isLoading (cells m) = true -> isLoading (shown m) = true) ->
  rerenderBetweenClicks fresh [h] = true ->
  let fresh' := match h with
                | Rerender => true
                | Event (ClickBook _) => false
                | Event _ => fresh
                end in
  steadyFlight (fst (happen p m h))
  /\ (fresh' = true ->
      isLoading (cells (fst (happen p m h))) = true ->
      isLoading (shown (fst (happen p m h))) = true).
Proof.
  intros Inv Hf Hw fresh'.
  destruct h as [ev|]; [|split; [exact Inv | now cbn]].
  destruct ev; try (split; [exact Inv | exact Hf]).
  - (* the Book button *)
    cbn in Hw. rewrite andb_true_r in Hw. subst fresh'.
    split; [|discriminate].
    cbn [happen]. destruct (bookButtonDisabled (shown m)) eqn:Hd; [exact Inv|].
    apply bookButtonEnabled_idle in Hd.
    assert (Hl : isLoading (cells m) = false).
    { destruct (isLoading (cells m)) eqn:E; [|reflexivity].
      rewrite (Hf Hw eq_refl) in Hd. discriminate Hd. }
    destruct Inv as [[_ Hp]|[Hl' _]]; [|congruence].
    unfold handleBooking, steadyFlight.
    destruct (validationAlert (shown m)) as [msg|]; cbn.
    + left. rewrite Hp. auto.
    + destruct getCurrentUser as [[u|]|]; cbn; rewrite Hp; cbn.
      * right. split; [reflexivity|]. eexists. reflexivity.
      * left. auto.
      * left. auto.
  - (* the promise settles *)
    cbn [happen]. destruct (awaiting m) as [|r rest] eqn:Hp.
    + split; [exact Inv | exact Hf].
    + cbn [fst cells shown awaiting]. rewrite isLoading_after_resume.
      split; [|discriminate]. left. cbn. rewrite isLoading_after_resume.
      split; [reflexivity|].
      destruct Inv as [[_ H]|[_ [r' H]]]; congruence.
Qed.

Lemma steadyFlight_happenAll (p : Physiotherapist) (hs : list Happening) :
  forall (fresh : bool) (m : Mounted),
    steadyFlight m ->
    (fresh = true -> isLoading (cells m) = true -> isLoading (shown m) = true) ->
    rerenderBetweenClicks fresh hs = true ->
    steadyFlight (fst (happenAll p m hs)).
Proof.
  induction hs as [|h rest IH]; intros fresh m Inv Hf Hw; [exact Inv|].
  assert (Hh : rerenderBetweenClicks fresh [h] = true).
  { destruct h as [ev|]; [destruct ev|]; cbn in *; try reflexivity.
    apply andb_true_iff in Hw as [-> _]. reflexivity. }
  destruct (steadyFlight_happen p fresh m h Inv Hf Hh) as [Inv' Hf'].
  cbn [happenAll]. destruct (happen p m h) as [m' es]. cbn [fst] in *.
  set (fresh' := match h with
                 | Rerender => true
                 | Event (ClickBook _) => false
                 | Event _ => fresh
                 end) in *.
  assert (Hw' : rerenderBetweenClicks fresh' rest = true).
  { subst fresh'. destruct h as [ev|]; [destruct ev|]; cbn in Hw; try exact Hw.
    now apply andb_true_iff in Hw as [_ Hw]. }
  specialize (IH fresh' m' Inv' Hf' Hw').
  destruct (happenAll p m' rest) as [m'' es']. exact IH.
Qed.


(** C2 (as amended).  The two layers check different things.  The button
    is disabled exactly when the date or the time is missing or a
    submission is in flight; the address fields play no part in it.
    [handleBooking] checks the full precondition on every call: when
    [canSubmit] is false it alerts and returns, never reaching the port;
    when it is true and a user is signed in, the port is called. *)
Theorem validation_layers :
  (forall s,
     bookButtonDisabled s = true <->
       selectedDate s = "" \/ selectedTime s = "" \/ isLoading s = true)
  /\ (forall s p g,
        canSubmit s = false ->
        exists msg, handleBooking p s g = ([Alert msg], Finished))
  /\ (forall s p u,
        canSubmit s = true ->
        snd (handleBooking p s (Returns (Some u))) = AwaitingPort).
Proof.
  split; [|split].
  - intro s. unfold bookButtonDisabled.
    rewrite !orb_true_iff, !negb_true_iff, !truthy_empty. tauto.
  - intros s p g H. now apply handleBooking_invalid.
  - intros s p u H. now rewrite handleBooking_valid.
Qed.

(** C3.  With [consultationType = presencial] the guards of [handleBooking]
    pass, and the specification's [canSubmit] is true, exactly when the
    date, the time and the five address fields are all non-empty.  When
    the precondition fails, the call only alerts: [isLoading] is never set
    and the port is not called.  With [consultationType = online] neither
    the guards nor [canSubmit] depend on what the address fields hold. *)
Theorem precondition_by_mode :
  (forall s,
     consultationType s = presencial ->
     ((validationAlert s = None <-> canSubmit s = true)
      /\ (canSubmit s = true <->
            selectedDate s <> "" /\ selectedTime s <> ""
            /\ addressStreet s <> "" /\ addressNumber s <> ""
            /\ addressNeighborhood s <> "" /\ addressCity s <> ""
            /\ addressState s <> ""))
     /\ (canSubmit s = false ->
         forall p g, exists msg,
           handleBooking p s g = ([Alert msg], Finished)
           /\ portCalls (fst (handleBooking p s g)) = []
           /\ applyEffects s (fst (handleBooking p s g)) = s))
  /\ (forall s,
        consultationType s = online ->
        forall street number neighborhood city st,
          let s' := mkForm (selectedDate s) (selectedTime s) online
                      street number neighborhood city st
                      (notes s) (isLoading s) in
          canSubmit s' = canSubmit s
          /\ validationAlert s' = validationAlert s).
Proof.
  split.
  - intros s Hm. split; [split|].
    + apply validationAlert_canSubmit.
    + unfold canSubmit. rewrite Hm.
      rewrite !andb_true_iff, !truthy_nonempty. tauto.
    + intros H p g. destruct (handleBooking_invalid p s g H) as [msg E].
      exists msg. rewrite E. auto.
  - intros s Hm street number neighborhood city st s'.
    unfold canSubmit, validationAlert. rewrite Hm. simpl. auto.
Qed.

(** C5 (as amended).  With a valid draft and nobody signed in,
    [handleBooking] first sets [isLoading] (line 57), then finds no user,
    alerts and returns; the [finally] block clears [isLoading] again.  The
    port is not called and the call ends with [isLoading] false. *)
Theorem no_user_after_loading (p : Physiotherapist) (s : FormState) :
  canSubmit s = true ->
  handleBooking p s (Returns None) =
    ([SetIsLoading true; Alert "Usuário não encontrado"; SetIsLoading false],
     Finished)
  /\ portCalls (fst (handleBooking p s (Returns None))) = []
  /\ isLoading (applyEffects s (fst (handleBooking p s (Returns None)))) = false.
Proof.
  intro H. rewrite (handleBooking_valid p s (Returns None) H). auto.
Qed.

(** C7.  For a valid draft and a signed-in patient, the port receives one
    request: the patient's id, the physiotherapist's id, name, specialty
    and price, the selected date, time and type; when the type is
    [presencial] it carries the address (street, number and neighbourhood
    in one string), the city and the state as entered, and when it is
    [online] the three are [undefined] (not an empty string); the notes are
    passed as they are, the empty string included. *)
Theorem request_payload (p : Physiotherapist) (s : FormState) (u : User) :
  canSubmit s = true ->
  exists r,
    handleBooking p s (Returns (Some u)) =
      ([SetIsLoading true; BookConsultation r], AwaitingPort)
    /\ patientId r = userId u
    /\ physiotherapistId r = physioId p
    /\ physiotherapistName r = physioName p
    /\ specialty r = physioSpecialty p
    /\ price r = physioPrice p
    /\ date r = selectedDate s
    /\ time r = selectedTime s
    /\ type r = consultationType s
    /\ match consultationType s with
       | presencial =>
           address r = Some (addressStreet s ++ ", " ++ addressNumber s
                             ++ " - " ++ addressNeighborhood s)
           /\ city r = Some (addressCity s) /\ state r = Some (addressState s)
       | online => address r = None /\ city r = None /\ state r = None
       end
    /\ requestNotes r = notes s.
Proof.
  intro H. exists (buildRequest p s u).
  rewrite (handleBooking_valid p s (Returns (Some u)) H).
  do 9 (split; [reflexivity|]). simpl.
  destruct (consultationType s); repeat split.
Qed.

(** C8.  When the port's promise settles with a failure, the handler
    alerts the reason and clears [isLoading]: for a result with
    [success = false] the reason is [result.error] when there is a
    (non-empty) message and 'Erro ao agendar consulta' otherwise; for a
    rejected promise it is 'Erro inesperado ao agendar consulta'.  In
    particular [{success: false, error: "slot taken"}] alerts
    "slot taken". *)
Theorem port_failure_reason (callback : Outcome unit) :
  (forall msg, msg <> "" ->
     handleBookingResume (Returns (mkResult false (Some msg))) callback =
       [Alert msg; SetIsLoading false])
  /\ handleBookingResume (Returns (mkResult false None)) callback =
       [Alert "Erro ao agendar consulta"; SetIsLoading false]
  /\ handleBookingResume (Returns (mkResult false (Some ""))) callback =
       [Alert "Erro ao agendar consulta"; SetIsLoading false]
  /\ handleBookingResume (Returns (mkResult false (Some "slot taken"))) callback =
       [Alert "slot taken"; SetIsLoading false]
  /\ handleBookingResume Throws callback =
       [Alert "Erro inesperado ao agendar consulta"; SetIsLoading false]
  /\ (forall settled s,
        match settled with Returns r => success r = false | Throws => True end ->
        exists reason,
          handleBookingResume settled callback = [Alert reason; SetIsLoading false]
          /\ isLoading (applyEffects s (handleBookingResume settled callback)) = false).
Proof.
  repeat split; try reflexivity.
  - intros msg Hm. unfold handleBookingResume. simpl.
    apply truthy_nonempty in Hm. now rewrite Hm.
  - intros settled s H. destruct settled as [r|].
    + exists (errorOrDefault (error r)). unfold handleBookingResume.
      rewrite H. auto.
    + eexists. split; reflexivity.
Qed.

(** C9.  [setConsultationType] changes the type and nothing else: after
    switching to [online] and back to [presencial] the five address fields
    hold what they held, and a form that was [presencial] is the same form
    again; the same holds for the two clicks on the mounted screen. *)
Theorem mode_switch_keeps_address (s : FormState) :
  let s' := setConsultationType presencial (setConsultationType online s) in
  (addressStreet s' = addressStreet s
   /\ addressNumber s' = addressNumber s
   /\ addressNeighborhood s' = addressNeighborhood s
   /\ addressCity s' = addressCity s
   /\ addressState s' = addressState s)
  /\ (consultationType s = presencial -> s' = s)
  /\ (forall p pending,
        run p (mkComponent s pending) [ChooseType online; ChooseType presencial]
        = (mkComponent s' pending, [])).
Proof.
  simpl. repeat split.
  intro H. destruct s. simpl in *. now subst.
Qed.

(** C10.  For a [presencial] booking the request's [address] is the one
    string made of street, ", ", number, " - " and neighbourhood; city and
    state travel as fields of their own. *)
Theorem address_is_concatenated (p : Physiotherapist) (s : FormState) (u : User) :
  canSubmit s = true ->
  consultationType s = presencial ->
  exists r,
    portCalls (fst (handleBooking p s (Returns (Some u)))) = [r]
    /\ address r =
         Some (addressStreet s ++ ", " ++ addressNumber s ++ " - "
               ++ addressNeighborhood s)
    /\ city r = Some (addressCity s)
    /\ state r = Some (addressState s).
Proof.
  intros H Hm. exists (buildRequest p s u).
  rewrite (handleBooking_valid p s (Returns (Some u)) H). simpl.
  rewrite Hm. auto.
Qed.

End Screen.

Arguments mkUser {UserId} userId.
Arguments userId {UserId} u.
Arguments mkPhysiotherapist {PhysioId Price} physioId physioName physioSpecialty physioPrice.
Arguments mkRequest {UserId PhysioId Price}.
Arguments Alert {UserId PhysioId Price} msg.
Arguments SetIsLoading {UserId PhysioId Price} b.
Arguments BookConsultation {UserId PhysioId Price} req.
Arguments OnSuccess {UserId PhysioId Price}.
Arguments buildRequest {UserId PhysioId Price} physiotherapist s currentUser.
Arguments handleBooking {UserId PhysioId Price} physiotherapist s getCurrentUser.
Arguments mkComponent {UserId PhysioId Price} form inFlight.
Arguments form {UserId PhysioId Price} c.
Arguments inFlight {UserId PhysioId Price} c.
Arguments ClickBook {UserId} getCurrentUser.
Arguments PickDate {UserId} v.
Arguments PickTime {UserId} v.
Arguments ChooseType {UserId} t.
Arguments step {UserId PhysioId Price} physiotherapist c ev.
Arguments run {UserId PhysioId Price} physiotherapist c evs.
Arguments portCalls {UserId PhysioId Price} es.
Arguments applyEffects {UserId PhysioId Price} s es.
Arguments mkMounted {UserId PhysioId Price} cells shown awaiting.
Arguments cells {UserId PhysioId Price} m.
Arguments shown {UserId PhysioId Price} m.
Arguments awaiting {UserId PhysioId Price} m.
Arguments Event {UserId} ev.
Arguments Rerender {UserId}.
Arguments happen {UserId PhysioId Price} physiotherapist m h.
Arguments happenAll {UserId PhysioId Price} physiotherapist m hs.
Arguments rerenderBetweenClicks {UserId} fresh hs.
Arguments summary {PhysioId Price} offset physiotherapist s.
Arguments summaryDate {Price} s.
Arguments summaryTime {Price} s.
Arguments summaryType {Price} s.
Arguments summaryPrice {Price} s.
Arguments signedInClicks {UserId} evs.
Arguments successCallbacks {UserId PhysioId Price} es.
Arguments PortSettles {UserId} settled callback.
Arguments TypeState {UserId} v.
Arguments TypeStreet {UserId} v.
Arguments TypeNumber {UserId} v.
Arguments TypeNeighborhood {UserId} v.
Arguments TypeCity {UserId} v.
Arguments TypeNotes {UserId} v.

(** ** Properties of the day slots *)

Section DaySlots.
Import JsDate.
Local Open Scope Z_scope.

(** The day number of a date read back from a day number is that day
    number. *)
Lemma MakeDay_civilFromDays (z : Z) :
  let c := civilFromDays z in MakeDay (year c) (month c) (day c) = z.
Proof.
  unfold MakeDay, civilFromDays, daysFromCivil; cbn [year month day].
  repeat match goal with
    | |- context [if ?b then _ else _] =>
        let E := fresh "E" in
        destruct b eqn:E;
        [ apply Z.leb_le in E || apply Z.ltb_lt in E
        | apply Z.leb_gt in E || apply Z.ltb_ge in E ]
    end;
    Z.div_mod_to_equations; lia.
Qed.

Lemma MakeDay_plus (y m d i : Z) : MakeDay y m (d + i) = MakeDay y m d + i.
Proof. unfold MakeDay. lia. Qed.

(** [date.setDate(date.getDate() + i)] moves the instant by [i] days. *)
Lemma setDate_getDate_plus (offset t i : Z) :
  setDate offset t (getDate offset t + i) = t + i * msPerDay.
Proof.
  unfold setDate, getDate.
  set (lt := LocalTime offset t).
  rewrite MakeDay_plus.
  pose proof (MakeDay_civilFromDays (Day lt)) as R. cbv zeta in R.
  rewrite R. unfold UTC, MakeDate, Day, TimeWithinDay.
  subst lt. unfold LocalTime.
  pose proof (Z.div_mod (t + offset * msPerMinute) msPerDay) as D.
  assert (H : msPerDay <> 0) by (unfold msPerDay; lia).
  specialize (D H). lia.
Qed.

Lemma Day_plus_days (t i : Z) : Day (t + i * msPerDay) = Day t + i.
Proof. unfold Day. apply Z.div_add. unfold msPerDay. lia. Qed.

(** The entry for [i]: its value is the UTC calendar date of the instant
    [i] days after [now], its label is rendered from the local date of the
    same instant. *)
Lemma nextDay_instant (clock : Clock) (i : Z) :
  nextDay clock i =
    mkDaySlot (isoDatePart (now clock + i * msPerDay))
              (localeParts (utcOffsetMinutes clock) (now clock + i * msPerDay)).
Proof. unfold nextDay. now rewrite setDate_getDate_plus. Qed.

Lemma getNextDays_length (clock : Clock) (count : Z) :
  List.length (getNextDays clock count) = Z.to_nat count.
Proof. unfold getNextDays. now rewrite length_map, length_seq. Qed.

Lemma getNextDays_nth (clock : Clock) (count : Z) (k : nat) :
  (k < Z.to_nat count)%nat ->
  nth_error (getNextDays clock count) k = Some (nextDay clock (Z.of_nat (S k))).
Proof.
  intro H. unfold getNextDays.
  rewrite nth_error_map, nth_error_seq.
  apply Nat.ltb_lt in H. now rewrite H.
Qed.

(** C4 (the code departs from it).  At 22:00 on 2025-03-09 in a zone three
    hours behind UTC, [getNextDays 1] gives one entry whose value is
    "2025-03-11", two days after the local date of the reference, while
    the label of the same entry is rendered from Monday 10 March: the
    value is the UTC date of the instant, not the local one. *)
Theorem getNextDays_value_is_utc_date :
  let clock := mkClock 1741568400000 (-180) in
  localCivil (utcOffsetMinutes clock) (now clock) = mkCivil 2025 3 9
  /\ getNextDays clock 1 = [mkDaySlot "2025-03-11" (mkLabel 1 10 3)].
Proof. vm_compute. split; reflexivity. Qed.

(** C6 (as amended).  The loop runs for i = 1, ..., count: for count = 0
    and for every negative count it does not run at all and the result is
    the empty list; nothing is raised. *)
Theorem getNextDays_nonpositive (clock : Clock) (count : Z) :
  count <= 0 -> getNextDays clock count = [].
Proof.
  intro H. unfold getNextDays.
  replace (Z.to_nat count) with O by lia. reflexivity.
Qed.
End DaySlots.

(** ** Concrete runs

    The identifiers are strings and the price an integer in what follows. *)

(** C1, as first stated, fails for [handleBooking] itself: it never reads
    [isLoading].  Called on a form whose [isLoading] is already set, with a
    valid draft and a signed-in patient, it calls the port again. *)
Lemma handleBooking_ignores_isLoading :
  let p := mkPhysiotherapist "f1" "Ana Lima" "Ortopedia" 120%Z in
  let s := mkForm "2025-03-10" "09:00" online "" "" "" "" "" "" true in
  isLoading s = true
  /\ handleBooking p s (Returns (Some (mkUser "u1"))) =
       ([SetIsLoading true;
         BookConsultation
           (mkRequest "u1" "f1" "Ana Lima" "2025-03-10" "09:00" online
              "Ortopedia" None None None 120%Z "")],
        AwaitingPort).
Proof. split; reflexivity. Qed.



(** C2, as first stated, fails: with date and time chosen and an empty
    address the draft cannot be submitted, yet the button is enabled. *)
Lemma button_enabled_with_incomplete_address :
  let s := mkForm "2025-03-10" "09:00" presencial "" "" "" "" "" "" false in
  canSubmit s = false /\ bookButtonDisabled s = false.
Proof. split; reflexivity. Qed.

Lemma validation_layers_witness :
  let p := mkPhysiotherapist "f1" "Ana Lima" "Ortopedia" 120%Z in
  let incomplete := mkForm "2025-03-10" "09:00" presencial "" "" "" "" "" "" false in
  let complete := mkForm "2025-03-10" "09:00" online "" "" "" "" "" "" false in
  (canSubmit incomplete = false
   /\ exists msg,
        handleBooking p incomplete (Returns (Some (mkUser "u1")))
        = ([Alert msg], Finished))
  /\ (canSubmit complete = true
      /\ snd (handleBooking p complete (Returns (Some (mkUser "u1")))) = AwaitingPort).
Proof.
  intros p incomplete complete.
  destruct (validation_layers string string Z) as [_ [Hno Hyes]].
  split.
  - split; [reflexivity|]. apply Hno. reflexivity.
  - split; [reflexivity|]. apply Hyes. reflexivity.
Defined.

Lemma precondition_by_mode_witness :
  let p := mkPhysiotherapist "f1" "Ana Lima" "Ortopedia" 120%Z in
  let incomplete :=
    mkForm "2025-03-10" "09:00" presencial "Rua A" "10" "" "Porto Alegre" "RS" "" false in
  let remote := mkForm "2025-03-10" "09:00" online "" "" "" "" "" "" false in
  (consultationType incomplete = presencial /\ canSubmit incomplete = false
   /\ exists msg,
        handleBooking p incomplete (Returns (Some (mkUser "u1")))
        = ([Alert msg], Finished))
  /\ (consultationType remote = online
      /\ canSubmit (mkForm "2025-03-10" "09:00" online
                      "Rua A" "10" "Centro" "Porto Alegre" "RS" "" false)
         = canSubmit remote).
Proof.
  intros p incomplete remote.
  destruct (precondition_by_mode string string Z) as [Hp Ho].
  split.
  - split; [reflexivity|]. split; [reflexivity|].
    destruct (Hp incomplete eq_refl) as [_ Hfail].
    destruct (Hfail eq_refl p (Returns (Some (mkUser "u1")))) as [msg [E _]].
    exists msg. exact E.
  - split; [reflexivity|].
    exact (proj1 (Ho remote eq_refl "Rua A" "10" "Centro" "Porto Alegre" "RS")).
Defined.

(** C5, as first stated, fails: with a valid draft and nobody signed in the
    call does set [isLoading] before it looks for the user. *)
Lemma no_user_sets_loading_first :
  let p := mkPhysiotherapist "f1" "Ana Lima" "Ortopedia" 120%Z in
  let s := mkForm "2025-03-10" "09:00" online "" "" "" "" "" "" false in
  canSubmit s = true
  /\ hd_error (fst (handleBooking (UserId := string) p s (Returns None)))
     = Some (SetIsLoading true)
  /\ In (SetIsLoading true) (fst (handleBooking (UserId := string) p s (Returns None))).
Proof. split; [reflexivity|]. split; [reflexivity|]. left. reflexivity. Qed.

Lemma no_user_after_loading_witness :
  let p := mkPhysiotherapist "f1" "Ana Lima" "Ortopedia" 120%Z in
  let s := mkForm "2025-03-10" "09:00" online "" "" "" "" "" "" false in
  canSubmit s = true
  /\ handleBooking (UserId := string) p s (Returns None) =
       ([SetIsLoading true; Alert "Usuário não encontrado"; SetIsLoading false],
        Finished).
Proof.
  intros p s. split; [reflexivity|].
  apply (no_user_after_loading string string Z p s). reflexivity.
Defined.

Lemma request_payload_witness :
  let p := mkPhysiotherapist "f1" "Ana Lima" "Ortopedia" 120%Z in
  let s := mkForm "2025-03-10" "09:00" presencial
             "Rua A" "10" "Centro" "Porto Alegre" "RS" "" false in
  canSubmit s = true
  /\ exists r,
       handleBooking p s (Returns (Some (mkUser "u1"))) =
         ([SetIsLoading true; BookConsultation r], AwaitingPort)
       /\ patientId _ _ _ r = "u1"
       /\ address _ _ _ r = Some "Rua A, 10 - Centro".
Proof.
  intros p s. split; [reflexivity|].
  destruct (request_payload string string Z p s (mkUser "u1") eq_refl)
    as [r [E [Hid [_ [_ [_ [_ [_ [_ [_ [[Ha _] _]]]]]]]]]]].
  exists r. split; [exact E | split; [exact Hid | exact Ha]].
Defined.

Lemma port_failure_reason_witness :
  "slot taken" <> ""
  /\ handleBookingResume string string Z
       (Returns (mkResult false (Some "slot taken"))) (Returns tt)
     = [Alert "slot taken"; SetIsLoading false]
  /\ exists reason,
       handleBookingResume string string Z Throws (Returns tt)
       = [Alert reason; SetIsLoading false].
Proof.
  destruct (port_failure_reason string string Z (Returns tt))
    as [Hmsg [_ [_ [_ [_ Hany]]]]].
  split; [discriminate|]. split.
  - apply Hmsg. discriminate.
  - destruct (Hany Throws initialForm I) as [reason [E _]].
    exists reason. exact E.
Defined.

Lemma mode_switch_keeps_address_witness :
  let s := mkForm "2025-03-10" "09:00" presencial
             "Rua A" "10" "Centro" "Porto Alegre" "RS" "" false in
  consultationType s = presencial
  /\ setConsultationType presencial (setConsultationType online s) = s.
Proof.
  intro s. split; [reflexivity|].
  apply (proj1 (proj2 (mode_switch_keeps_address string string Z s))).
  reflexivity.
Defined.

Lemma address_is_concatenated_witness :
  let p := mkPhysiotherapist "f1" "Ana Lima" "Ortopedia" 120%Z in
  let s := mkForm "2025-03-10" "09:00" presencial
             "Rua A" "10" "Centro" "Porto Alegre" "RS" "" false in
  canSubmit s = true /\ consultationType s = presencial
  /\ exists r,
       portCalls (fst (handleBooking p s (Returns (Some (mkUser "u1"))))) = [r]
       /\ address _ _ _ r = Some "Rua A, 10 - Centro".
Proof.
  intros p s. split; [reflexivity|]. split; [reflexivity|].
  destruct (address_is_concatenated string string Z p s (mkUser "u1") eq_refl eq_refl)
    as [r [E [Ha _]]].
  exists r. split; [exact E | exact Ha].
Defined.

(** C6, as first stated, fails: a negative count is not refused; the result
    is the empty list, the same as for count 0. *)
Lemma getNextDays_negative_is_empty :
  getNextDays (mkClock 1741568400000 (-180)) (-1) = []
  /\ getNextDays (mkClock 1741568400000 (-180)) (-1)
     = getNextDays (mkClock 1741568400000 (-180)) 0.
Proof. split; reflexivity. Qed.

Lemma getNextDays_nonpositive_witness :
  (-3 <= 0)%Z /\ getNextDays (mkClock 1741568400000 (-180)) (-3) = [].
Proof.
  split; [lia|]. apply (getNextDays_nonpositive (mkClock 1741568400000 (-180)) (-3)). lia.
Defined.

(** ** Day values read back *)

Section DayValues.
Import JsDate.
Local Open Scope Z_scope.

Ltac split_ifs :=
  repeat match goal with
    | |- context [if ?b then _ else _] =>
        let E := fresh "E" in
        destruct b eqn:E;
        [ apply Z.leb_le in E || apply Z.ltb_lt in E
        | apply Z.leb_gt in E || apply Z.ltb_ge in E ]
    end.

Lemma civilFromDays_month_day (z : Z) :
  1 <= month (civilFromDays z) <= 12 /\ 1 <= day (civilFromDays z) <= 31.
Proof.
  unfold civilFromDays; cbn [year month day].
  split_ifs; Z.div_mod_to_equations; lia.
Qed.

Lemma daysFromCivil_MakeDay (y m d : Z) : daysFromCivil y m d = MakeDay y m d.
Proof. unfold MakeDay, daysFromCivil. lia. Qed.

Lemma daysFromCivil_civilFromDays (z : Z) :
  daysFromCivil (year (civilFromDays z)) (month (civilFromDays z))
    (day (civilFromDays z)) = z.
Proof. rewrite daysFromCivil_MakeDay. apply MakeDay_civilFromDays. Qed.

Lemma daysFromCivil_before_year_0 (y m d : Z) :
  y <= -1 -> 1 <= m <= 12 -> d <= 31 -> daysFromCivil y m d <= -719529.
Proof.
  intros. unfold daysFromCivil.
  split_ifs; Z.div_mod_to_equations; lia.
Qed.

Lemma daysFromCivil_after_year_9999 (y m d : Z) :
  10000 <= y -> 1 <= m <= 12 -> 1 <= d -> 2932897 <= daysFromCivil y m d.
Proof.
  intros. unfold daysFromCivil.
  split_ifs; Z.div_mod_to_equations; lia.
Qed.

Lemma civilFromDays_year (z : Z) :
  -719528 <= z < 2932897 -> 0 <= year (civilFromDays z) <= 9999.
Proof.
  intro H.
  pose proof (daysFromCivil_civilFromDays z) as R.
  destruct (civilFromDays_month_day z) as [Hm Hd].
  split.
  - destruct (Z_lt_le_dec (year (civilFromDays z)) 0) as [L|L]; [|exact L].
    assert (L' : year (civilFromDays z) <= -1) by lia.
    pose proof (daysFromCivil_before_year_0 _ _ _ L' Hm (proj2 Hd)). lia.
  - destruct (Z_lt_le_dec 9999 (year (civilFromDays z))) as [L|L]; [|lia].
    assert (L' : 10000 <= year (civilFromDays z)) by lia.
    pose proof (daysFromCivil_after_year_9999 _ _ _ L' Hm (proj1 Hd)). lia.
Qed.

Lemma isCalendarDate_civilFromDays (z : Z) :
  isCalendarDate (year (civilFromDays z)) (month (civilFromDays z))
    (day (civilFromDays z)) = true.
Proof.
  unfold isCalendarDate. rewrite daysFromCivil_civilFromDays.
  destruct (civilFromDays_month_day z) as [[? ?] [? ?]].
  rewrite !Z.eqb_refl, !andb_true_r.
  rewrite !andb_true_iff, !Z.leb_le. auto.
Qed.

Lemma digitValue_digit (n : Z) : 0 <= n < 10 -> digitValue (digit n) = Some n.
Proof.
  intro H. unfold digitValue, digit.
  rewrite nat_ascii_embedding by lia.
  assert (L1 : (48 <=? 48 + Z.to_nat n)%nat = true) by (apply Nat.leb_le; lia).
  assert (L2 : (48 + Z.to_nat n <=? 57)%nat = true) by (apply Nat.leb_le; lia).
  rewrite L1, L2. cbn [andb]. f_equal. lia.
Qed.

Lemma twoDigits_digits (n : Z) :
  0 <= n < 100 ->
  twoDigits (digit (n / 10 mod 10)) (digit (n mod 10)) = Some n.
Proof.
  intro H. unfold twoDigits.
  rewrite !digitValue_digit by (apply Z.mod_pos_bound; lia).
  f_equal. Z.div_mod_to_equations. lia.
Qed.

Lemma padDigits_two (n : Z) :
  padDigits 2 n = String (digit (n / 10 mod 10)) (String (digit (n mod 10)) EmptyString).
Proof. reflexivity. Qed.

Lemma padDigits_four (n : Z) :
  padDigits 4 n =
    String (digit ((n / 100) / 10 mod 10)) (String (digit ((n / 100) mod 10))
      (String (digit ((n mod 100) / 10 mod 10)) (String (digit ((n mod 100) mod 10))
         EmptyString))).
Proof.
  cbn [padDigits append].
  assert (E3 : n / 10 / 10 / 10 mod 10 = (n / 100) / 10 mod 10)
    by (Z.div_mod_to_equations; lia).
  assert (E2 : n / 10 / 10 mod 10 = (n / 100) mod 10)
    by (Z.div_mod_to_equations; lia).
  assert (E1 : n / 10 mod 10 = (n mod 100) / 10 mod 10)
    by (Z.div_mod_to_equations; lia).
  assert (E0 : n mod 10 = (n mod 100) mod 10)
    by (Z.div_mod_to_equations; lia).
  now rewrite E3, E2, E1, <- E0.
Qed.

Lemma parseDateOnly_isoDatePart (t : Z) :
  -62167219200000 <= t < 253402300800000 ->
  parseDateOnly (isoDatePart t) = Some (Day t * msPerDay).
Proof.
  intro H.
  assert (HD : -719528 <= Day t < 2932897).
  { unfold Day, msPerDay. Z.div_mod_to_equations. lia. }
  unfold isoDatePart.
  pose proof (civilFromDays_year _ HD) as Hy.
  destruct (civilFromDays_month_day (Day t)) as [Hm Hd].
  pose proof (isCalendarDate_civilFromDays (Day t)) as Hv.
  pose proof (daysFromCivil_civilFromDays (Day t)) as Hr.
  destruct (civilFromDays (Day t)) as [y m d]; cbn [year month day] in *.
  unfold isoYear.
  replace ((0 <=? y) && (y <=? 9999)) with true
    by (symmetry; apply andb_true_iff; split; apply Z.leb_le; lia).
  rewrite padDigits_four, !padDigits_two.
  cbn [append parseDateOnly].
  change (Ascii.eqb "-" "-") with true. cbn [andb].
  rewrite (twoDigits_digits (y / 100)) by (Z.div_mod_to_equations; lia).
  rewrite (twoDigits_digits (y mod 100)) by (Z.div_mod_to_equations; lia).
  rewrite (twoDigits_digits m) by lia.
  rewrite (twoDigits_digits d) by lia.
  replace (y / 100 * 100 + y mod 100) with y by (Z.div_mod_to_equations; lia).
  rewrite Hv, Hr. reflexivity.
Qed.

Lemma localeParts_labelOfDay (offset t : Z) :
  localeParts offset t = labelOfDay (Day (LocalTime offset t)).
Proof. reflexivity. Qed.

Lemma LocalTime_plus_days (offset t i : Z) :
  LocalTime offset (t + i * msPerDay) = LocalTime offset t + i * msPerDay.
Proof. unfold LocalTime. lia. Qed.

Lemma Day_mono (a b : Z) : a <= b -> Day a <= Day b.
Proof. intro H. unfold Day. apply Z.div_le_mono; [unfold msPerDay; lia | exact H]. Qed.

Lemma MakeDate_plus_days (lt i : Z) :
  MakeDate (MakeDay (year (civilFromDays (Day lt))) (month (civilFromDays (Day lt)))
              (day (civilFromDays (Day lt)) + i))
           (TimeWithinDay lt)
  = lt + i * msPerDay.
Proof.
  rewrite MakeDay_plus.
  pose proof (MakeDay_civilFromDays (Day lt)) as R. cbv zeta in R. rewrite R.
  unfold MakeDate, Day, TimeWithinDay.
  pose proof (Z.div_mod lt msPerDay) as D.
  assert (H : msPerDay <> 0) by (unfold msPerDay; lia).
  specialize (D H). lia.
Qed.

(** Where the zone keeps one offset and the dates stay in range, the
    iteration of [i] gives the entry of the instant [i] days after its
    reading of the clock. *)
Lemma nextDayIn_steady (rt : Runtime) (offset lo hi count : Z) (i : nat) :
  -1440 < offset < 1440 ->
  readingsWithin rt lo hi ->
  noClockChange rt offset (lo - msPerDay) (hi + (count + 1) * msPerDay) ->
  - maxTime <= lo ->
  hi + count * msPerDay <= maxTime ->
  (1 <= i)%nat ->
  Z.of_nat i <= count ->
  nextDayIn rt i = Returns (slotAt offset (reading rt i + Z.of_nat i * msPerDay)).
Proof.
  intros Ho Hr Hz Hlo Hhi Hi1 Hic.
  specialize (Hr i).
  assert (Zt : LocalTZA rt (reading rt i) true = offset * msPerMinute).
  { apply Hz. unfold msPerDay. lia. }
  assert (Zl : LocalTZA rt (reading rt i + offset * msPerMinute
                            + Z.of_nat i * msPerDay) false
               = offset * msPerMinute).
  { apply Hz. unfold msPerDay, msPerMinute. lia. }
  assert (Zd : LocalTZA rt (reading rt i + Z.of_nat i * msPerDay) true
               = offset * msPerMinute).
  { apply Hz. unfold msPerDay. lia. }
  assert (C : (Z.abs (reading rt i + Z.of_nat i * msPerDay) <=? maxTime) = true).
  { apply Z.leb_le. unfold msPerDay, maxTime in *. lia. }
  unfold nextDayIn, setDateIn, getDateIn, LocalTimeIn, UTCIn. cbv zeta.
  rewrite Zt, MakeDate_plus_days, Zl.
  replace (reading rt i + offset * msPerMinute + Z.of_nat i * msPerDay
           - offset * msPerMinute)
    with (reading rt i + Z.of_nat i * msPerDay) by lia.
  unfold TimeClip. rewrite C, Zd. reflexivity.
Qed.

Lemma collectDays_all (rt : Runtime) (f : nat -> DaySlot) (indices : list nat) :
  (forall i, In i indices -> nextDayIn rt i = Returns (f i)) ->
  collectDays rt indices = Returns (map f indices).
Proof.
  induction indices as [|i rest IH]; intro H; [reflexivity|].
  cbn [collectDays map]. rewrite (H i (or_introl eq_refl)).
  rewrite IH; [reflexivity|]. intros j Hj. apply H. now right.
Qed.

Lemma getNextDaysIn_steady (rt : Runtime) (offset lo hi count : Z) :
  -1440 < offset < 1440 ->
  readingsWithin rt lo hi ->
  noClockChange rt offset (lo - msPerDay) (hi + (count + 1) * msPerDay) ->
  - maxTime <= lo ->
  hi + count * msPerDay <= maxTime ->
  getNextDaysIn rt count
  = Returns (map (fun i => slotAt offset (reading rt i + Z.of_nat i * msPerDay))
               (seq 1 (Z.to_nat count))).
Proof.
  intros Ho Hr Hz Hlo Hhi. unfold getNextDaysIn.
  apply collectDays_all. intros i Hi. apply in_seq in Hi.
  apply (nextDayIn_steady rt offset lo hi count); auto; lia.
Qed.

(** The loop of [getNextDays] is the general one in a zone that never
    changes its offset, with one reading of the clock. *)
Lemma getNextDaysIn_fixed_zone (clock : Clock) (count : Z) :
  -1440 < utcOffsetMinutes clock < 1440 ->
  - maxTime <= now clock ->
  now clock + count * msPerDay <= maxTime ->
  getNextDaysIn (mkRuntime (fun _ _ => utcOffsetMinutes clock * msPerMinute)
                           (fun _ => now clock)) count
  = Returns (getNextDays clock count).
Proof.
  intros Ho Hlo Hhi.
  rewrite (getNextDaysIn_steady _ (utcOffsetMinutes clock) (now clock) (now clock) count);
    auto; try (intro; cbn; lia); try (intros x b _; reflexivity).
  unfold getNextDays. f_equal. apply map_ext. intro i.
  now rewrite nextDay_instant.
Qed.

(** X1.  In a zone that keeps one offset over the days in question, and
    with the dates within the range of time values, [getNextDays] gives
    exactly [count] entries, and entry number [k] (from 0) is rendered from
    the instant exactly [k + 1] days after the clock reading of its
    iteration, also across the end of a month or a year: same local time of
    day, label taken from the local calendar day [k + 1] days after that of
    the reading, value the UTC date of that instant. *)
Theorem getNextDays_entries (rt : Runtime) (offset lo hi count : Z) :
  0 <= count ->
  -1440 < offset < 1440 ->
  readingsWithin rt lo hi ->
  noClockChange rt offset (lo - msPerDay) (hi + (count + 1) * msPerDay) ->
  - maxTime <= lo ->
  hi + count * msPerDay <= maxTime ->
  exists days,
    getNextDaysIn rt count = Returns days
    /\ Z.of_nat (List.length days) = count
    /\ forall k, (k < Z.to_nat count)%nat ->
         let t := reading rt (S k) + Z.of_nat (S k) * msPerDay in
         nth_error days k = Some (slotAt offset t)
         /\ label (slotAt offset t)
            = labelOfDay (Day (LocalTime offset (reading rt (S k))) + Z.of_nat (S k))
         /\ Day t = Day (reading rt (S k)) + Z.of_nat (S k)
         /\ TimeWithinDay (LocalTime offset t)
            = TimeWithinDay (LocalTime offset (reading rt (S k))).
Proof.
  intros Hc Ho Hr Hz Hlo Hhi.
  eexists. split; [apply (getNextDaysIn_steady rt offset lo hi count); assumption|].
  split; [rewrite length_map, length_seq; lia|].
  intros k L t. split; [|split; [|split]].
  - rewrite nth_error_map, nth_error_seq.
    apply Nat.ltb_lt in L. now rewrite L.
  - unfold slotAt, t; cbn [label].
    now rewrite localeParts_labelOfDay, LocalTime_plus_days, Day_plus_days.
  - apply Day_plus_days.
  - unfold t. rewrite LocalTime_plus_days. unfold TimeWithinDay.
    apply Z.mod_add. unfold msPerDay. lia.
Qed.

Lemma steady_values_parsed (rt : Runtime) (offset lo hi count : Z) :
  readingsWithin rt lo hi ->
  -62167219200000 <= lo ->
  hi + count * msPerDay < 253402300800000 ->
  map parseDateOnly
    (map value (map (fun i => slotAt offset (reading rt i + Z.of_nat i * msPerDay))
                  (seq 1 (Z.to_nat count))))
  = map (fun i => Some ((Day (reading rt i) + Z.of_nat i) * msPerDay))
      (seq 1 (Z.to_nat count)).
Proof.
  intros Hr Hlo Hhi. rewrite !map_map.
  apply map_ext_in. intros i Hi. apply in_seq in Hi. cbn [slotAt value].
  specialize (Hr i).
  rewrite parseDateOnly_isoDatePart, Day_plus_days; [reflexivity|].
  unfold msPerDay in *. nia.
Qed.

Lemma steady_values_NoDup (rt : Runtime) (offset lo hi count : Z) :
  readingsWithin rt lo hi ->
  (forall i j, (i <= j)%nat -> reading rt i <= reading rt j) ->
  -62167219200000 <= lo ->
  hi + count * msPerDay < 253402300800000 ->
  NoDup (map value (map (fun i => slotAt offset (reading rt i + Z.of_nat i * msPerDay))
                      (seq 1 (Z.to_nat count)))).
Proof.
  intros Hr Hmono Hlo Hhi.
  apply (NoDup_map_inv parseDateOnly).
  rewrite (steady_values_parsed rt offset lo hi count Hr Hlo Hhi).
  apply NoDup_map_NoDup_ForallPairs; [|apply seq_NoDup].
  intros a b _ _ E. inversion E as [E'].
  assert (Ed : Day (reading rt a) + Z.of_nat a = Day (reading rt b) + Z.of_nat b)
    by (unfold msPerDay in E'; lia).
  destruct (Nat.lt_trichotomy a b) as [L|[L|L]]; [|exact L|].
  - pose proof (Day_mono _ _ (Hmono a b ltac:(lia))). lia.
  - pose proof (Day_mono _ _ (Hmono b a ltac:(lia))). lia.
Qed.

Lemma nth_error_map_seq {A : Type} (f : nat -> A) (n k : nat) (d : A) :
  nth_error (map f (seq 1 n)) k = Some d -> (k < n)%nat /\ d = f (S k).
Proof.
  rewrite nth_error_map, nth_error_seq.
  destruct (k <? n)%nat eqn:L; cbn; intro H; [|discriminate H].
  apply Nat.ltb_lt in L. split; [exact L|]. now inversion H.
Qed.

(** X2.  In a zone that keeps one offset over the days in question, with a
    clock that does not run backwards and the dates in the years 0 to 9999,
    the value of every entry, read back as [new Date(value)] reads it, is
    midnight UTC of the UTC day [k + 1] days after that of its reading; the
    values are therefore pairwise distinct (they serve as the keys of the
    day buttons). *)
Theorem day_values_read_back (rt : Runtime) (offset lo hi count : Z) :
  -1440 < offset < 1440 ->
  readingsWithin rt lo hi ->
  (forall i j, (i <= j)%nat -> reading rt i <= reading rt j) ->
  noClockChange rt offset (lo - msPerDay) (hi + (count + 1) * msPerDay) ->
  -62167219200000 <= lo ->
  hi + count * msPerDay < 253402300800000 ->
  exists days,
    getNextDaysIn rt count = Returns days
    /\ (forall k d,
          nth_error days k = Some d ->
          parseDateOnly (value d)
          = Some ((Day (reading rt (S k)) + Z.of_nat (S k)) * msPerDay))
    /\ NoDup (map value days).
Proof.
  intros Ho Hr Hmono Hz Hlo Hhi.
  eexists. split.
  { apply (getNextDaysIn_steady rt offset lo hi count); auto;
      unfold maxTime; lia. }
  split; [|now apply (steady_values_NoDup rt offset lo hi count)].
  intros k d H. apply nth_error_map_seq in H as [L ->]. cbn [slotAt value].
  specialize (Hr (S k)).
  rewrite parseDateOnly_isoDatePart, Day_plus_days; [reflexivity|].
  assert (Z.of_nat (S k) <= count) by lia.
  unfold msPerDay in *. nia.
Qed.

Lemma filter_none {A : Type} (f : A -> bool) (l : list A) :
  (forall x, In x l -> f x = false) -> filter f l = [].
Proof.
  induction l as [|a l IH]; intro H; [reflexivity|].
  cbn [filter]. rewrite (H a (or_introl eq_refl)).
  apply IH. intros x Hx. apply H. now right.
Qed.

Lemma filter_unique_key {A : Type} (f : A -> string) (l : list A) (k : nat) (d : A) :
  NoDup (map f l) ->
  nth_error l k = Some d ->
  filter (fun x => String.eqb (f d) (f x)) l = [d].
Proof.
  revert k. induction l as [|a l IH]; intros k ND H.
  - destruct k; discriminate.
  - cbn [map] in ND. inversion ND as [|? ? Hnotin ND']; subst.
    cbn [filter]. destruct k as [|k]; cbn [nth_error] in H.
    + inversion H; subst a. rewrite String.eqb_refl. f_equal.
      apply filter_none. intros x Hx.
      destruct (String.eqb (f d) (f x)) eqn:E; [|reflexivity].
      apply String.eqb_eq in E. exfalso. apply Hnotin.
      rewrite E. now apply in_map.
    + destruct (String.eqb (f d) (f a)) eqn:E.
      * apply String.eqb_eq in E. exfalso. apply Hnotin.
        rewrite <- E. apply in_map. eapply nth_error_In; eauto.
      * eapply IH; eauto.
Qed.


Lemma Day_LocalTime_midnight (offset dayNumber : Z) :
  -1440 < offset < 1440 ->
  Day (LocalTime offset (dayNumber * msPerDay))
  = if offset <? 0 then dayNumber - 1 else dayNumber.
Proof.
  intro H. unfold Day, LocalTime, msPerDay, msPerMinute.
  destruct (offset <? 0) eqn:E;
    [apply Z.ltb_lt in E | apply Z.ltb_ge in E];
    Z.div_mod_to_equations; lia.
Qed.

Lemma truthy_isoDatePart (t : Z) :
  -62167219200000 <= t < 253402300800000 -> truthy (isoDatePart t) = true.
Proof.
  intro H. pose proof (parseDateOnly_isoDatePart t H) as P.
  destruct (isoDatePart t); [discriminate P | reflexivity].
Qed.

Lemma summary_shift_aux {PhysioId Price : Type}
    (offset : Z) (p : Physiotherapist PhysioId Price) (s : FormState) (t : Z) :
  -62167219200000 <= t < 253402300800000 ->
  -1440 < offset < 1440 ->
  selectedDate s = isoDatePart t ->
  selectedTime s <> ""%string ->
  exists sm,
    summary offset p s = Some sm
    /\ summaryDate sm
       = Some (labelOfDay (if offset <? 0 then Day t - 1 else Day t)).
Proof.
  intros Ht Ho Hd Htime. unfold summary. rewrite Hd.
  rewrite (truthy_isoDatePart t Ht).
  apply truthy_nonempty in Htime. rewrite Htime. cbn [andb].
  eexists. split; [reflexivity|]. cbn [summaryDate].
  rewrite (parseDateOnly_isoDatePart t Ht). cbn [option_map].
  now rewrite localeParts_labelOfDay, Day_LocalTime_midnight.
Qed.

(** X4.  The summary card reads the selected value back as midnight UTC
    and renders that instant in the local calendar: east of Greenwich (and
    at UTC) it shows the day the value names, west of Greenwich the day
    before it. *)
Theorem summary_date_shift {PhysioId Price : Type}
    (offset : Z) (p : Physiotherapist PhysioId Price) (s : FormState) (t : Z) :
  -62167219200000 <= t < 253402300800000 ->
  -1440 < offset < 1440 ->
  selectedDate s = isoDatePart t ->
  selectedTime s <> ""%string ->
  exists sm,
    summary offset p s = Some sm
    /\ summaryDate sm
       = Some (labelOfDay (if offset <? 0 then Day t - 1 else Day t)).
Proof.
  intros Ht Ho Hd Htime.
  assert (Hshown : truthy (selectedDate s) && truthy (selectedTime s) = true).
  { rewrite Hd, (truthy_isoDatePart t Ht). now apply truthy_nonempty in Htime. }
  unfold summary. rewrite Hshown.
  eexists. split; [reflexivity|]. cbn [summaryDate].
  rewrite Hd, (parseDateOnly_isoDatePart t Ht). cbn [option_map].
  f_equal. rewrite localeParts_labelOfDay. f_equal.
  now apply Day_LocalTime_midnight.
Qed.

(** X5.  From the day button to the summary card, in a zone that keeps
    one offset over the days in question: the button of entry number [k] is
    labelled with the local day [k + 1] days after that of its clock
    reading, and after the click the card shows the UTC day [k + 1] days
    after that of the reading, less one day west of Greenwich.  So where
    the local date equals the UTC date and the zone is west of Greenwich,
    the card shows the day before the one on the button. *)
Theorem summary_after_pick {PhysioId Price : Type}
    (rt : Runtime) (offset lo hi count : Z) (p : Physiotherapist PhysioId Price)
    (s : FormState) (k : nat) (d : DaySlot) :
  -1440 < offset < 1440 ->
  readingsWithin rt lo hi ->
  noClockChange rt offset (lo - msPerDay) (hi + (count + 1) * msPerDay) ->
  -62167219200000 <= lo ->
  hi + count * msPerDay < 253402300800000 ->
  selectedTime s <> ""%string ->
  exists days,
    getNextDaysIn rt count = Returns days
    /\ (nth_error days k = Some d ->
        let today := Day (LocalTime offset (reading rt (S k))) in
        let todayUtc := Day (reading rt (S k)) in
        label d = labelOfDay (today + Z.of_nat (S k))
        /\ exists sm,
             summary offset p (setSelectedDate (value d) s) = Some sm
             /\ summaryDate sm
                = Some (labelOfDay (if offset <? 0
                                    then todayUtc + Z.of_nat (S k) - 1
                                    else todayUtc + Z.of_nat (S k)))
             /\ (today = todayUtc -> offset < 0 ->
                 summaryDate sm = Some (labelOfDay (today + Z.of_nat (S k) - 1)))).
Proof.
  intros Ho Hr Hz Hlo Hhi Htime.
  eexists. split.
  { apply (getNextDaysIn_steady rt offset lo hi count); auto;
      unfold maxTime; lia. }
  intros H today todayUtc. apply nth_error_map_seq in H as [L ->].
  set (t := reading rt (S k) + Z.of_nat (S k) * msPerDay).
  assert (Ht : -62167219200000 <= t < 253402300800000).
  { unfold t. specialize (Hr (S k)). assert (Z.of_nat (S k) <= count) by lia.
    unfold msPerDay in *. nia. }
  split.
  - unfold slotAt; cbn [label]. unfold t.
    now rewrite localeParts_labelOfDay, LocalTime_plus_days, Day_plus_days.
  - destruct (summary_shift_aux offset p (setSelectedDate (isoDatePart t) s) t)
      as [sm [E1 E2]]; auto.
    exists sm. cbn [slotAt value]. split; [exact E1|].
    unfold t in E2. rewrite Day_plus_days in E2. fold todayUtc in E2.
    split.
    + rewrite E2. now destruct (offset <? 0).
    + intros Eq Neg. rewrite E2, Eq.
      apply Z.ltb_lt in Neg. now rewrite Neg.
Qed.
End DayValues.

(** ** Runs of the mounted screen *)

Section ScreenRuns.
Variables UserId PhysioId Price : Type.
Variable p : Physiotherapist PhysioId Price.

Local Abbreviation Component' := (Component UserId PhysioId Price).
Local Abbreviation Effect' := (Effect UserId PhysioId Price).
Local Abbreviation Request' := (BookingRequest UserId PhysioId Price).

Lemma portCalls_app (es es' : list Effect') :
  portCalls (es ++ es') = (portCalls es ++ portCalls es')%list.
Proof. unfold portCalls. apply flat_map_app. Qed.

Lemma successCallbacks_app (es es' : list Effect') :
  successCallbacks (es ++ es') = (successCallbacks es + successCallbacks es')%nat.
Proof. unfold successCallbacks. now rewrite filter_app, length_app. Qed.

Lemma portCalls_resume (settled : Outcome BookingResult) (callback : Outcome unit) :
  portCalls (handleBookingResume UserId PhysioId Price settled callback) = [].
Proof.
  unfold handleBookingResume.
  destruct settled as [r|]; [destruct (success r), callback|]; reflexivity.
Qed.

Lemma applyEffects_resume (s : FormState) (settled : Outcome BookingResult)
    (callback : Outcome unit) :
  applyEffects s (handleBookingResume UserId PhysioId Price settled callback)
  = setIsLoading false s.
Proof.
  unfold handleBookingResume.
  destruct settled as [r|]; [destruct (success r), callback|]; reflexivity.
Qed.

(** What a click on an enabled button observes, by cases. *)
Lemma click_effects (c : Component') (g : Outcome (option (User UserId))) :
  bookButtonDisabled (form c) = false ->
  (canSubmit (form c) = false
   /\ consultationType (form c) = presencial
   /\ snd (step p c (ClickBook g))
      = [Alert "Por favor, preencha todos os campos de endereço"])
  \/ (canSubmit (form c) = true
      /\ snd (step p c (ClickBook g))
         = fst (handleBooking p (form c) g)).
Proof.
  intro Hd. cbn [step]. rewrite Hd. cbn [snd].
  destruct (canSubmit (form c)) eqn:Hc; [right; auto|left].
  unfold bookButtonDisabled in Hd.
  apply orb_false_iff in Hd as [Hd _].
  apply orb_false_iff in Hd as [H1 H2].
  unfold canSubmit in Hc. unfold handleBooking, validationAlert.
  rewrite H1, H2. cbn [orb].
  apply negb_false_iff in H1, H2. rewrite H1, H2 in Hc. cbn [andb] in Hc.
  destruct (consultationType (form c)); [|discriminate Hc].
  split; [reflexivity|]. split; [reflexivity|].
  destruct (truthy (addressStreet (form c))), (truthy (addressNumber (form c))),
    (truthy (addressNeighborhood (form c))), (truthy (addressCity (form c))),
    (truthy (addressState (form c))); try discriminate Hc; reflexivity.
Qed.

(** A property of every effect of a run follows from one step at a time,
    along an invariant of the states. *)
Lemma run_Forall (I : Component' -> Prop) (Q : Effect' -> Prop) :
  (forall c ev, I c -> I (fst (step p c ev)) /\ Forall Q (snd (step p c ev))) ->
  forall evs c, I c -> I (fst (run p c evs)) /\ Forall Q (snd (run p c evs)).
Proof.
  intros Hstep evs. induction evs as [|ev rest IH]; intros c Hc.
  - split; [exact Hc | constructor].
  - cbn [run]. destruct (Hstep c ev Hc) as [Hc' Hes].
    destruct (step p c ev) as [c' es]. cbn [fst snd] in *.
    destruct (IH c' Hc') as [Hc'' Hes'].
    destruct (run p c' rest) as [c'' es']. cbn [fst snd] in *.
    split; [exact Hc''|]. apply Forall_app. split; assumption.
Qed.

Lemma Forall_portCalls (R : Request' -> Prop) (es : list Effect') :
  Forall (fun e => match e with BookConsultation r => R r | _ => True end) es ->
  forall r, In r (portCalls es) -> R r.
Proof.
  induction 1 as [|e es He _ IH]; intros r Hr; [destruct Hr|].
  unfold portCalls in Hr. cbn [flat_map] in Hr. apply in_app_or in Hr.
  destruct Hr as [Hr|Hr]; [|now apply IH].
  destruct e; cbn in Hr; try contradiction. destruct Hr as [<-|[]]. exact He.
Qed.

(** X6.  Behind the button the first guard of [handleBooking] never fires:
    a click never shows the alert that asks for date and time.  It shows
    the alert that asks for the address exactly when the button is enabled
    and the draft cannot be submitted, which happens only with
    [presencial]. *)
Theorem click_never_asks_for_date (c : Component') (g : Outcome (option (User UserId))) :
  let es := snd (step p c (ClickBook g)) in
  ~ In (Alert "Por favor, selecione data e horário") es
  /\ (In (Alert "Por favor, preencha todos os campos de endereço") es <->
        bookButtonDisabled (form c) = false /\ canSubmit (form c) = false)
  /\ (In (Alert "Por favor, preencha todos os campos de endereço") es ->
        consultationType (form c) = presencial).
Proof.
  intro es. subst es.
  destruct (bookButtonDisabled (form c)) eqn:Hd.
  - cbn [step]. rewrite Hd. cbn [snd In].
    split; [tauto|]. split; [|tauto]. split; [tauto|]. intros [E _]. discriminate E.
  - destruct (click_effects c g Hd) as [[Hc [Hm ->]]|[Hc ->]].
    + cbn [In]. split; [intros [E|[]]; discriminate E|].
      split; [|auto]. split; auto.
    + rewrite (handleBooking_valid _ _ _ p (form c) g Hc).
      destruct g as [[u|]|]; cbn [fst In];
        (split; [intros [E|[E|[E|[]]]] || intros [E|[E|[]]]; discriminate E|]);
        (split; [split; [intros [E|[E|[E|[]]]] || intros [E|[E|[]]]; discriminate E
                        | intros [_ E]; congruence]
               | intros [E|[E|[E|[]]]] || intros [E|[E|[]]]; discriminate E]).
Qed.

Lemma step_portCalls_bound (c : Component') (ev : UiEvent UserId) :
  (List.length (portCalls (snd (step p c ev))) <= signedInClicks [ev])%nat.
Proof.
  destruct ev; try (cbn; lia).
  - cbn [step]. destruct (bookButtonDisabled (form c)); [cbn; lia|].
    cbn [snd]. unfold handleBooking.
    destruct (validationAlert (form c)); [cbn; lia|].
    destruct getCurrentUser as [[u|]|]; cbn; lia.
  - cbn [step]. destruct (inFlight c); [cbn; lia|].
    cbn [snd]. rewrite portCalls_resume. cbn; lia.
Qed.

(** X7.  The port is called at most once for each click made while a
    patient is signed in, and never otherwise: edits, clicks without a
    patient and settlements (whatever their outcome) call nothing, so a
    failed submission is never retried by the screen. *)
Theorem port_called_at_most_once_per_click (evs : list (UiEvent UserId)) (c : Component') :
  (List.length (portCalls (snd (run p c evs))) <= signedInClicks evs)%nat.
Proof.
  revert c. induction evs as [|ev rest IH]; intro c; [cbn; lia|].
  cbn [run]. pose proof (step_portCalls_bound c ev) as Hs.
  destruct (step p c ev) as [c' es]. specialize (IH c').
  destruct (run p c' rest) as [c'' es']. cbn [fst snd] in *.
  rewrite portCalls_app, length_app.
  change (signedInClicks (ev :: rest))
    with (signedInClicks ([ev] ++ rest)%list).
  unfold signedInClicks in *. rewrite filter_app, length_app. lia.
Qed.

Lemma step_requests_valid (c : Component') (ev : UiEvent UserId) :
  Forall (fun e => match e with
                   | BookConsultation r =>
                       exists s u, r = buildRequest p s u /\ canSubmit s = true
                   | _ => True
                   end) (snd (step p c ev)).
Proof.
  destruct ev; try (cbn; constructor).
  - cbn [step]. destruct (bookButtonDisabled (form c)); [constructor|].
    cbn [snd]. destruct (canSubmit (form c)) eqn:Hc.
    + rewrite (handleBooking_valid _ _ _ p (form c) getCurrentUser Hc).
      destruct getCurrentUser as [[u|]|]; cbn [fst]; repeat constructor.
      exists (form c), u. auto.
    + destruct (handleBooking_invalid _ _ _ p (form c) getCurrentUser Hc) as [msg ->].
      repeat constructor.
  - cbn [step]. destruct (inFlight c); [constructor|]. cbn [snd].
    unfold handleBookingResume.
    destruct settled as [r|]; [destruct (success r), callback|];
      repeat constructor.
Qed.

Lemma buildRequest_fields (s : FormState) (u : User UserId) :
  canSubmit s = true ->
  let r := buildRequest p s u in
  date _ _ _ r <> "" /\ time _ _ _ r <> ""
  /\ physiotherapistId _ _ _ r = physioId _ _ p
  /\ price _ _ _ r = physioPrice _ _ p
  /\ match type _ _ _ r with
     | presencial =>
         exists street number neighborhood cityName stateCode,
           street <> "" /\ number <> "" /\ neighborhood <> ""
           /\ cityName <> "" /\ stateCode <> ""
           /\ address _ _ _ r = Some (street ++ ", " ++ number ++ " - " ++ neighborhood)
           /\ city _ _ _ r = Some cityName
           /\ state _ _ _ r = Some stateCode
     | online =>
         address _ _ _ r = None /\ city _ _ _ r = None /\ state _ _ _ r = None
     end.
Proof.
  intros Hc r. subst r. unfold canSubmit in Hc. cbn.
  apply andb_true_iff in Hc as [Hc Ha].
  apply andb_true_iff in Hc as [Hd Ht].
  apply truthy_nonempty in Hd, Ht.
  split; [exact Hd|]. split; [exact Ht|]. split; [reflexivity|]. split; [reflexivity|].
  destruct (consultationType s); [|auto].
  rewrite !andb_true_iff, !truthy_nonempty in Ha.
  destruct Ha as [[[[H1 H2] H3] H4] H5].
  exists (addressStreet s), (addressNumber s), (addressNeighborhood s),
    (addressCity s), (addressState s). auto 10.
Qed.

(** X8.  Whatever the user does, from whatever state, every request that
    reaches the port has a date and a time, carries the physiotherapist's id
    and price, and either is [presencial] with a non-empty street, number,
    neighbourhood, city and state, or is [online] with address, city and
    state [undefined]. *)
Theorem requests_are_well_formed (evs : list (UiEvent UserId)) (c : Component')
    (r : Request') :
  In r (portCalls (snd (run p c evs))) ->
  date _ _ _ r <> "" /\ time _ _ _ r <> ""
  /\ physiotherapistId _ _ _ r = physioId _ _ p
  /\ price _ _ _ r = physioPrice _ _ p
  /\ match type _ _ _ r with
     | presencial =>
         exists street number neighborhood cityName stateCode,
           street <> "" /\ number <> "" /\ neighborhood <> ""
           /\ cityName <> "" /\ stateCode <> ""
           /\ address _ _ _ r = Some (street ++ ", " ++ number ++ " - " ++ neighborhood)
           /\ city _ _ _ r = Some cityName
           /\ state _ _ _ r = Some stateCode
     | online =>
         address _ _ _ r = None /\ city _ _ _ r = None /\ state _ _ _ r = None
     end.
Proof.
  intro Hr.
  destruct (run_Forall (fun _ => True) _
              (fun c ev _ => conj I (step_requests_valid c ev)) evs c I) as [_ HF].
  destruct (Forall_portCalls _ _ HF r Hr) as [s [u [-> Hc]]].
  now apply buildRequest_fields.
Qed.

Lemma isLowerAscii_upperAscii (ch : ascii) : isLowerAscii (upperAscii ch) = false.
Proof. destruct ch as [[] [] [] [] [] [] [] []]; reflexivity. Qed.

Lemma noLowerAscii_toUpperCase (v : string) : noLowerAscii (toUpperCase v) = true.
Proof.
  induction v as [|ch v IH]; [reflexivity|].
  cbn [toUpperCase noLowerAscii]. now rewrite isLowerAscii_upperAscii, IH.
Qed.

Lemma addressState_applyEffects (es : list Effect') (s : FormState) :
  addressState (applyEffects s es) = addressState s.
Proof.
  revert s. induction es as [|e es IH]; intro s; [reflexivity|].
  unfold applyEffects in *. cbn [fold_left]. rewrite IH. now destruct e.
Qed.

Lemma step_state_upper (c : Component') (ev : UiEvent UserId) :
  noLowerAscii (addressState (form c)) = true ->
  noLowerAscii (addressState (form (fst (step p c ev)))) = true
  /\ Forall (fun e => match e with
                      | BookConsultation r =>
                          forall st, state _ _ _ r = Some st -> noLowerAscii st = true
                      | _ => True
                      end) (snd (step p c ev)).
Proof.
  intro H. destruct ev; try (cbn; split; [exact H | constructor]).
  - cbn. split; [apply noLowerAscii_toUpperCase | constructor].
  - cbn [step]. destruct (bookButtonDisabled (form c)); [split; [exact H|constructor]|].
    cbn [fst snd form]. rewrite addressState_applyEffects. split; [exact H|].
    unfold handleBooking. destruct (validationAlert (form c)); [repeat constructor|].
    destruct getCurrentUser as [[u|]|]; cbn [fst]; repeat constructor.
    cbn. intros st. destruct (consultationType (form c)); [|discriminate].
    intro E. inversion E; subst st. exact H.
  - cbn [step]. destruct (inFlight c); [split; [exact H|constructor]|].
    cbn [fst snd form]. rewrite addressState_applyEffects. split; [exact H|].
    unfold handleBookingResume.
    destruct settled as [r|]; [destruct (success r), callback|];
      repeat constructor.
Qed.

(** X9.  The state code is stored upper-cased, so from the initial screen
    on no request ever carries a state with a lower-case letter a-z, and the
    stored state never holds one. *)
Theorem state_code_is_upper_cased (evs : list (UiEvent UserId)) :
  noLowerAscii (addressState (form (fst (run p (mount _ _ _) evs)))) = true
  /\ forall r st,
       In r (portCalls (snd (run p (mount _ _ _) evs))) ->
       state _ _ _ r = Some st -> noLowerAscii st = true.
Proof.
  destruct (run_Forall (fun c => noLowerAscii (addressState (form c)) = true) _
              step_state_upper evs (mount _ _ _) eq_refl) as [HI HF].
  split; [exact HI|].
  intros r st Hr. exact (Forall_portCalls _ _ HF r Hr st).
Qed.

Lemma successCallbacks_resume (settled : Outcome BookingResult) (callback : Outcome unit) :
  (successCallbacks (handleBookingResume UserId PhysioId Price settled callback) <= 1)%nat.
Proof.
  unfold handleBookingResume.
  destruct settled as [r|]; [destruct (success r), callback|]; cbn; lia.
Qed.

Lemma step_callbacks_bound (c : Component') (ev : UiEvent UserId) :
  (successCallbacks (snd (step p c ev)) + List.length (inFlight (fst (step p c ev)))
   <= List.length (inFlight c) + List.length (portCalls (snd (step p c ev))))%nat.
Proof.
  destruct ev; try (cbn; lia).
  - cbn [step]. destruct (bookButtonDisabled (form c)); [cbn; lia|].
    cbn [fst snd inFlight]. rewrite length_app.
    unfold handleBooking. destruct (validationAlert (form c)); [cbn; lia|].
    destruct getCurrentUser as [[u|]|]; cbn; lia.
  - cbn [step]. destruct (inFlight c) as [|r pending] eqn:E; [cbn; rewrite E; cbn; lia|].
    cbn [fst snd inFlight]. rewrite portCalls_resume.
    pose proof (successCallbacks_resume settled callback). cbn [List.length]. lia.
Qed.

Lemma run_callbacks_bound (evs : list (UiEvent UserId)) (c : Component') :
  (successCallbacks (snd (run p c evs)) + List.length (inFlight (fst (run p c evs)))
   <= List.length (inFlight c) + List.length (portCalls (snd (run p c evs))))%nat.
Proof.
  revert c. induction evs as [|ev rest IH]; intro c; [cbn; lia|].
  cbn [run]. pose proof (step_callbacks_bound c ev) as Hs.
  destruct (step p c ev) as [c' es]. specialize (IH c').
  destruct (run p c' rest) as [c'' es']. cbn [fst snd] in *.
  rewrite portCalls_app, successCallbacks_app, length_app. lia.
Qed.

(** X10.  From the initial screen on, [onSuccess] is called at most once
    for each request sent to the port: the calls of the callback plus the
    requests still pending never exceed the requests sent. *)
Theorem success_callback_at_most_once_per_request (evs : list (UiEvent UserId)) :
  let c := fst (run p (mount _ _ _) evs) in
  let es := snd (run p (mount _ _ _) evs) in
  (successCallbacks es + List.length (inFlight c) <= List.length (portCalls es))%nat.
Proof. exact (run_callbacks_bound evs (mount _ _ _)). Qed.

(** X11.  A settlement, whatever the port answers and whatever
    [onSuccess] does, clears [isLoading], takes the settled call off the
    pending ones and leaves every field as the user left it, in any state.
    When the screen was drawn again between any two clicks, nothing is
    pending after it, and once the screen is drawn the button is disabled
    only if date or time is missing. *)
Theorem settlement_returns_to_idle
    (settled : Outcome BookingResult) (callback : Outcome unit) :
  (forall (m : Mounted UserId PhysioId Price) r rest,
     awaiting m = r :: rest ->
     fst (happen p m (Event (PortSettles settled callback)))
     = mkMounted (setIsLoading false (cells m)) (shown m) rest)
  /\ (forall hs : list (Happening UserId),
        rerenderBetweenClicks true hs = true ->
        let m := fst (happenAll p (mounted UserId PhysioId Price) hs) in
        awaiting m <> [] ->
        let m' := fst (happenAll p m [Event (PortSettles settled callback); Rerender]) in
        m' = mkMounted (setIsLoading false (cells m)) (setIsLoading false (cells m)) []
        /\ bookButtonDisabled (shown m')
           = negb (truthy (selectedDate (cells m)) && truthy (selectedTime (cells m)))).
Proof.
  assert (Hany : forall (m : Mounted UserId PhysioId Price) r rest,
            awaiting m = r :: rest ->
            fst (happen p m (Event (PortSettles settled callback)))
            = mkMounted (setIsLoading false (cells m)) (shown m) rest).
  { intros m r rest Hp. cbn [happen]. rewrite Hp. cbn [fst].
    now rewrite applyEffects_resume. }
  split; [exact Hany|].
  intros hs Hw m Hne m'.
  assert (Inv : steadyFlight _ _ _ m).
  { apply (steadyFlight_happenAll _ _ _ p hs true (mounted UserId PhysioId Price));
      [left; split; reflexivity | intros _ H; discriminate H | exact Hw]. }
  destruct Inv as [[_ Hp]|[_ [r Hp]]]; [congruence|].
  assert (E : m' = mkMounted (setIsLoading false (cells m))
                     (setIsLoading false (cells m)) []).
  { subst m'. cbn [happenAll].
    pose proof (Hany m r [] Hp) as H1.
    destruct (happen p m (Event (PortSettles settled callback))) as [m1 es1].
    cbn [fst] in H1. subst m1. reflexivity. }
  split; [exact E|]. rewrite E. cbn.
  unfold bookButtonDisabled. cbn.
  destruct (truthy (selectedDate (cells m))), (truthy (selectedTime (cells m)));
    reflexivity.
Qed.

(** X14.  When the port reports success the handler shows the success
    alert, calls [onSuccess] once and clears [isLoading]; if [onSuccess]
    itself throws, the alert for an unexpected error follows the success
    alert.  In every other settlement [onSuccess] is not called. *)
Theorem settlement_on_success (settled : Outcome BookingResult) (callback : Outcome unit) :
  let es := handleBookingResume UserId PhysioId Price settled callback in
  let succeeded := match settled with Returns r => success r | Throws => false end in
  successCallbacks es = (if succeeded then 1 else 0)%nat
  /\ (succeeded = true ->
      es = match callback with
           | Returns _ =>
               [Alert "Consulta agendada com sucesso!"; OnSuccess;
                SetIsLoading false]
           | Throws =>
               [Alert "Consulta agendada com sucesso!"; OnSuccess;
                Alert "Erro inesperado ao agendar consulta"; SetIsLoading false]
           end).
Proof.
  unfold handleBookingResume.
  destruct settled as [r|]; [destruct (success r), callback|];
    cbn; split; try reflexivity; intro E; discriminate E.
Qed.

(** X12.  The card and the request agree: whenever the button is enabled
    the summary card is drawn, and for a valid draft the time, the price and
    the kind of consultation on the card are those of the request a click
    sends. *)
Theorem summary_matches_request (offset : Z) (s : FormState) (u : User UserId) :
  (bookButtonDisabled s = false -> summary offset p s <> None)
  /\ (canSubmit s = true ->
      exists sm r,
        summary offset p s = Some sm
        /\ portCalls (fst (handleBooking p s (Returns (Some u)))) = [r]
        /\ summaryTime sm = time _ _ _ r
        /\ summaryPrice sm = price _ _ _ r
        /\ (summaryType sm = "Atendimento Domiciliar" <-> type _ _ _ r = presencial)
        /\ (summaryType sm = "Consulta Online" <-> type _ _ _ r = online)).
Proof.
  split.
  - unfold bookButtonDisabled, summary. intro H.
    apply orb_false_iff in H as [H _]. apply orb_false_iff in H as [H1 H2].
    apply negb_false_iff in H1, H2. rewrite H1, H2. discriminate.
  - intro Hc. rewrite (handleBooking_valid _ _ _ p s (Returns (Some u)) Hc).
    pose proof Hc as Hc'. unfold canSubmit in Hc'.
    apply andb_true_iff in Hc' as [Hdt _]. unfold summary. rewrite Hdt.
    eexists. eexists. split; [reflexivity|]. split; [reflexivity|].
    cbn. destruct (consultationType s); repeat split; intro E;
      try reflexivity; discriminate E.
Qed.
End ScreenRuns.

(** ** The avatar's initials *)

Section Initials.

Lemma split_app_sep (sep : ascii) (a b : string) :
  split sep (a ++ String sep b) = (split sep a ++ split sep b)%list.
Proof.
  induction a as [|ch a IH]; cbn [append split].
  - now rewrite Ascii.eqb_refl.
  - rewrite IH. destruct (Ascii.eqb ch sep); [reflexivity|].
    destruct (split sep a) as [|w ws] eqn:E; [|reflexivity].
    destruct a; cbn in E; [discriminate E|].
    destruct (Ascii.eqb a sep); [discriminate E|].
    destruct (split sep a0); discriminate E.
Qed.

Lemma append_assoc (a b c : string) : (a ++ b) ++ c = a ++ (b ++ c).
Proof. induction a as [|ch a IH]; cbn [append]; [reflexivity | now rewrite IH]. Qed.

Lemma append_nil_r (a : string) : a ++ "" = a.
Proof. induction a as [|ch a IH]; cbn [append]; [reflexivity | now rewrite IH]. Qed.

Lemma join_app (xs ys : list string) : join (xs ++ ys) = join xs ++ join ys.
Proof.
  induction xs as [|x xs IH]; [reflexivity|].
  cbn [join app fold_right] in *. fold (join (xs ++ ys)). fold (join xs).
  rewrite IH. symmetry. apply append_assoc.
Qed.

Lemma split_pieces_no_sep (sep : ascii) (s : string) :
  Forall (fun w => ~ In sep (list_ascii_of_string w)) (split sep s).
Proof.
  induction s as [|ch s IH]; cbn [split].
  - repeat constructor. intros [].
  - destruct (Ascii.eqb ch sep) eqn:E.
    + constructor; [intros []|exact IH].
    + apply Ascii.eqb_neq in E.
      destruct (split sep s) as [|w ws].
      * repeat constructor. cbn. intros [H|[]]. auto.
      * inversion IH as [|? ? Hw Hws]; subst. constructor; [|exact Hws].
        cbn. intros [H|H]; auto.
Qed.

Lemma join_firstUnit_no_sep (sep : ascii) (ws : list string) :
  Forall (fun w => ~ In sep (list_ascii_of_string w)) ws ->
  ~ In sep (list_ascii_of_string (join (map firstUnit ws))).
Proof.
  induction 1 as [|w ws Hw _ IH]; [intros []|].
  cbn [map join fold_right]. fold (join (map firstUnit ws)).
  destruct w as [|ch w]; cbn [firstUnit append]; [exact IH|].
  cbn. intros [H|H]; [|auto]. apply Hw. cbn. auto.
Qed.

(** X13.  The initials are made word by word: the initials of two names
    joined by a space are the initials of the first followed by those of
    the second; the empty name and runs of spaces contribute nothing, and
    no space ever appears among the initials. *)
Theorem initials_word_by_word (a b : string) :
  initials (a ++ " " ++ b) = initials a ++ initials b
  /\ initials "" = ""
  /\ initials (a ++ " ") = initials a
  /\ ~ In " "%char (list_ascii_of_string (initials a)).
Proof.
  unfold initials. split; [|split; [|split]].
  - change (" " ++ b) with (String " " b).
    now rewrite split_app_sep, map_app, join_app.
  - reflexivity.
  - change " " with (String " " EmptyString) at 1.
    rewrite split_app_sep, map_app, join_app. cbn [split map firstUnit join fold_right].
    apply append_nil_r.
  - apply join_firstUnit_no_sep, split_pieces_no_sep.
Qed.
End Initials.

(** ** Concrete runs of the added properties *)

(** A zone three hours behind UTC that was two hours behind until early
    2019, and a clock read at 22:00 on 2025-03-09 there. *)
Lemma getNextDays_entries_witness :
  let rt := mkRuntime
              (fun x _ => if (x <? 1550000000000)%Z then (-7200000)%Z else (-10800000)%Z)
              (fun _ => 1741568400000%Z) in
  exists days,
    getNextDaysIn rt 9 = Returns days
    /\ Z.of_nat (List.length days) = 9%Z
    /\ nth_error days 0
       = Some (slotAt (-180) (1741568400000 + 1 * JsDate.msPerDay)).
Proof.
  intro rt.
  destruct (getNextDays_entries rt (-180) 1741568400000 1741568400000 9)
    as [days [E [Hlen Hk]]].
  - lia.
  - lia.
  - intro i. cbn. lia.
  - intros x b Hx. cbn.
    destruct (Z.ltb_spec x 1550000000000);
      [unfold JsDate.msPerDay in Hx; lia | reflexivity].
  - unfold maxTime. lia.
  - unfold maxTime, JsDate.msPerDay. lia.
  - exists days. split; [exact E|]. split; [exact Hlen|].
    exact (proj1 (Hk 0%nat ltac:(cbn; lia))).
Defined.

Lemma day_values_read_back_witness :
  let rt := mkRuntime
              (fun x _ => if (x <? 1550000000000)%Z then (-7200000)%Z else (-10800000)%Z)
              (fun _ => 1741568400000%Z) in
  exists days,
    getNextDaysIn rt 9 = Returns days
    /\ NoDup (map value days).
Proof.
  intro rt.
  destruct (day_values_read_back rt (-180) 1741568400000 1741568400000 9)
    as [days [E [_ Hnd]]].
  - lia.
  - intro i. cbn. lia.
  - intros i j _. cbn. lia.
  - intros x b Hx. cbn.
    destruct (Z.ltb_spec x 1550000000000);
      [unfold JsDate.msPerDay in Hx; lia | reflexivity].
  - lia.
  - unfold JsDate.msPerDay. lia.
  - exists days. split; [exact E | exact Hnd].
Defined.


(** Without the condition on the zone the values can repeat.  In a zone
    five hours behind UTC that moves to four hours behind at 07:00 UTC on
    2025-03-09, with the clock read at 19:30 on 2025-03-07, the entries for
    Saturday 8 and Sunday 9 March both carry the value "2025-03-09". *)
Lemma values_repeat_across_clock_change :
  let rt := mkRuntime
              (fun x isUTC =>
                 if isUTC
                 then (if (x <? 1741503600000)%Z then (-18000000)%Z else (-14400000)%Z)
                 else (if (x <? 1741489200000)%Z then (-18000000)%Z else (-14400000)%Z))
              (fun _ => 1741393800000%Z) in
  getNextDaysIn rt 2
  = Returns [mkDaySlot "2025-03-09" (JsDate.mkLabel 6 8 3);
             mkDaySlot "2025-03-09" (JsDate.mkLabel 0 9 3)].
Proof. reflexivity. Qed.

Lemma summary_date_shift_witness :
  let p := mkPhysiotherapist "f1" "Ana Lima" "Ortopedia" 120%Z in
  let s := mkForm "2025-03-11" "09:00" online "" "" "" "" "" "" false in
  selectedDate s = JsDate.isoDatePart 1741651200000
  /\ exists sm,
       summary (-180) p s = Some sm
       /\ summaryDate sm = Some (labelOfDay (JsDate.Day 1741651200000 - 1)).
Proof.
  intros p s. split; [reflexivity|].
  apply (summary_date_shift (-180) p s 1741651200000);
    [lia | lia | reflexivity | discriminate].
Defined.

Lemma summary_after_pick_witness :
  let rt := mkRuntime
              (fun x _ => if (x <? 1550000000000)%Z then (-7200000)%Z else (-10800000)%Z)
              (fun _ => 1741615200000%Z) in
  let p := mkPhysiotherapist "f1" "Ana Lima" "Ortopedia" 120%Z in
  let s := setSelectedTime "09:00" initialForm in
  let d := mkDaySlot "2025-03-11" (JsDate.mkLabel 2 11 3) in
  exists days,
    getNextDaysIn rt 9 = Returns days
    /\ nth_error days 0 = Some d
    /\ label d = labelOfDay (JsDate.Day (JsDate.LocalTime (-180) 1741615200000) + 1)
    /\ exists sm,
         summary (-180) p (setSelectedDate (value d) s) = Some sm
         /\ summaryDate sm = Some (labelOfDay (JsDate.Day 1741615200000 + 1 - 1)).
Proof.
  intros rt p s d.
  destruct (summary_after_pick rt (-180) 1741615200000 1741615200000 9 p s 0 d)
    as [days [E H]].
  - lia.
  - intro i. cbn. lia.
  - intros x b Hx. cbn.
    destruct (Z.ltb_spec x 1550000000000);
      [unfold JsDate.msPerDay in Hx; lia | reflexivity].
  - lia.
  - unfold JsDate.msPerDay. lia.
  - discriminate.
  - exists days. split; [exact E|].
    assert (Hd : nth_error days 0 = Some d).
    { assert (Ed : Returns days
                   = Returns [d;
                        mkDaySlot "2025-03-12" (JsDate.mkLabel 3 12 3);
                        mkDaySlot "2025-03-13" (JsDate.mkLabel 4 13 3);
                        mkDaySlot "2025-03-14" (JsDate.mkLabel 5 14 3);
                        mkDaySlot "2025-03-15" (JsDate.mkLabel 6 15 3);
                        mkDaySlot "2025-03-16" (JsDate.mkLabel 0 16 3);
                        mkDaySlot "2025-03-17" (JsDate.mkLabel 1 17 3);
                        mkDaySlot "2025-03-18" (JsDate.mkLabel 2 18 3);
                        mkDaySlot "2025-03-19" (JsDate.mkLabel 3 19 3)])
        by (rewrite <- E; reflexivity).
      inversion Ed. reflexivity. }
    split; [exact Hd|].
    destruct (H Hd) as [Hl [sm [E1 [E2 _]]]].
    split; [exact Hl|]. exists sm. split; [exact E1 | exact E2].
Defined.

Lemma click_never_asks_for_date_witness :
  let p := mkPhysiotherapist "f1" "Ana Lima" "Ortopedia" 120%Z in
  let c := mkComponent
             (mkForm "2025-03-10" "09:00" presencial "" "" "" "" "" "" false)
             ([] : list (BookingRequest string string Z)) in
  let es := snd (step p c (ClickBook (Returns (Some (mkUser "u1"))))) in
  (bookButtonDisabled (form c) = false /\ canSubmit (form c) = false)
  /\ In (Alert "Por favor, preencha todos os campos de endereço") es
  /\ ~ In (Alert "Por favor, selecione data e horário") es.
Proof.
  intros p c es.
  destruct (click_never_asks_for_date string string Z p c
              (Returns (Some (mkUser "u1")))) as [Hno [Hiff _]].
  split; [split; reflexivity|]. split.
  - apply Hiff. split; reflexivity.
  - exact Hno.
Defined.

Lemma requests_are_well_formed_witness :
  let p := mkPhysiotherapist "f1" "Ana Lima" "Ortopedia" 120%Z in
  let evs := [PickDate "2025-03-10"; PickTime "09:00"; ChooseType online;
              ClickBook (Returns (Some (mkUser "u1")))] in
  let r := mkRequest "u1" "f1" "Ana Lima" "2025-03-10" "09:00" online
             "Ortopedia" None None None 120%Z "" in
  In r (portCalls (snd (run p (mount string string Z) evs)))
  /\ date _ _ _ r <> "" /\ time _ _ _ r <> "".
Proof.
  intros p evs r.
  assert (H : In r (portCalls (snd (run p (mount string string Z) evs))))
    by (left; reflexivity).
  split; [exact H|].
  destruct (requests_are_well_formed string string Z p evs _ r H) as [Hd [Ht _]].
  split; [exact Hd | exact Ht].
Defined.

Lemma state_code_is_upper_cased_witness :
  let p := mkPhysiotherapist "f1" "Ana Lima" "Ortopedia" 120%Z in
  let evs := [PickDate "2025-03-10"; PickTime "09:00"; TypeStreet "Rua A";
              TypeNumber "10"; TypeNeighborhood "Centro";
              TypeCity "Porto Alegre"; TypeState "rs";
              ClickBook (Returns (Some (mkUser "u1")))] in
  let r := mkRequest "u1" "f1" "Ana Lima" "2025-03-10" "09:00" presencial
             "Ortopedia" (Some "Rua A, 10 - Centro") (Some "Porto Alegre")
             (Some "RS") 120%Z "" in
  In r (portCalls (snd (run p (mount string string Z) evs)))
  /\ state _ _ _ r = Some "RS"
  /\ noLowerAscii "RS" = true.
Proof.
  intros p evs r.
  assert (H : In r (portCalls (snd (run p (mount string string Z) evs))))
    by (left; reflexivity).
  split; [exact H|]. split; [reflexivity|].
  exact (proj2 (state_code_is_upper_cased string string Z p evs) r "RS" H eq_refl).
Defined.

Lemma settlement_returns_to_idle_witness :
  let p := mkPhysiotherapist "f1" "Ana Lima" "Ortopedia" 120%Z in
  let hs := [Event (PickDate "2025-03-10"); Event (PickTime "09:00");
             Event (ChooseType online); Rerender;
             Event (ClickBook (Returns (Some (mkUser "u1"))));
             Event (TypeNotes "joelho")] in
  let settled := Returns (mkResult false (Some "slot taken")) in
  let m := fst (happenAll p (mounted string string Z) hs) in
  rerenderBetweenClicks true hs = true
  /\ awaiting m <> []
  /\ fst (happenAll p m [Event (PortSettles settled (Returns tt)); Rerender])
     = mkMounted (setIsLoading false (cells m)) (setIsLoading false (cells m)) [].
Proof.
  intros p hs settled m.
  assert (Hw : rerenderBetweenClicks true hs = true) by reflexivity.
  assert (Hne : awaiting m <> []) by discriminate.
  split; [exact Hw|]. split; [exact Hne|].
  exact (proj1 (proj2 (settlement_returns_to_idle string string Z p settled (Returns tt))
                  hs Hw Hne)).
Defined.

Lemma summary_matches_request_witness :
  let p := mkPhysiotherapist "f1" "Ana Lima" "Ortopedia" 120%Z in
  let s := mkForm "2025-03-10" "09:00" presencial
             "Rua A" "10" "Centro" "Porto Alegre" "RS" "" false in
  (bookButtonDisabled s = false /\ summary (-180) p s <> None)
  /\ (canSubmit s = true
      /\ exists sm r,
           summary (-180) p s = Some sm
           /\ portCalls (fst (handleBooking p s (Returns (Some (mkUser "u1"))))) = [r]
           /\ summaryTime sm = time _ _ _ r).
Proof.
  intros p s.
  destruct (summary_matches_request string string Z p (-180) s (mkUser "u1"))
    as [Hshown Hagree].
  split.
  - split; [reflexivity|]. apply Hshown. reflexivity.
  - split; [reflexivity|].
    destruct (Hagree eq_refl) as [sm [r [E1 [E2 [E3 _]]]]].
    exists sm, r. auto.
Defined.

Lemma settlement_on_success_witness :
  handleBookingResume string string Z (Returns (mkResult true None)) Throws
  = [Alert "Consulta agendada com sucesso!"; OnSuccess;
     Alert "Erro inesperado ao agendar consulta"; SetIsLoading false].
Proof.
  exact (proj2 (settlement_on_success string string Z
                  (Returns (mkResult true None)) Throws) eq_refl).
Defined.

Lemma initials_word_by_word_witness :
  initials ("Ana" ++ " " ++ "Lima") = initials "Ana" ++ initials "Lima"
  /\ ~ In " "%char (list_ascii_of_string (initials "Ana")).
Proof.
  destruct (initials_word_by_word "Ana" "Lima") as [H [_ [_ Hn]]].
  split; [exact H | exact Hn].
Defined.
